(** * proxysix: the proxy6 client, its domain model and its errors

    A shallow embedding of [pkg/entities] and [pkg/client] of
    github.com/ferux/proxysix, with the parts of Go's standard library
    that the two packages call ([strconv], [strings], [errors], [fmt],
    [time]), followed by the properties of the mapping, parsing and
    error paths.

    Conventions.
    - A Go [string] is a sequence of bytes: Rocq's [string], whose
      characters are the 256 values of [ascii].
    - Go's [int] is the 64-bit one; [int], [int64] and [uint64] values
      are [Z] with the wrap-around written where the code can reach it.
    - A Go function returning [(T, error)] returns a pair
      [T * option error]; [None] is the [nil] error.
    - A slice read by the code is a [list]; the slice that
      [ListProxies] returns, [nil] on every error, is an
      [option (list _)] with [None] for [nil].
    - A call that may panic returns an [Outcome]. *)

From Stdlib Require Import ZArith List String Ascii Bool Lia.
From Stdlib Require Import Decimal DecimalString DecimalPos.
Import ListNotations.

Local Open Scope string_scope.
Local Open Scope Z_scope.

(* ================================================================== *)
(** * Bytes and strings *)

Definition byte := ascii.

(** The numeric value of a byte. *)
Definition b2z (c : byte) : Z := Z.of_N (N_of_ascii c).

(** [len(s)] *)
Definition len (s : string) : Z := Z.of_nat (String.length s).

(** utf8.RuneSelf: bytes below it are single-byte runes. *)
Definition RuneSelf : Z := 128.

(** A byte as a one-byte string from its value (taken modulo 256). *)
Definition z2b (z : Z) : byte := ascii_of_N (Z.to_N (z mod 256)).

(* ================================================================== *)
(** * The error values of the program

    Go's [error] is an open interface.  The program only ever holds
    the concrete error types below, so the embedding closes it over
    them.  The three structs of client/errors.go come first. *)

(** client.RequestError *)
Record RequestError : Type := mkRequestError {
  code : Z;
  msg : string
}.

(** client.GeneralError; its field [msg] is [general_msg] here, since
    record projections share one name space. *)
Record GeneralError : Type := mkGeneralError {
  general_msg : string
}.

(** client.ParseError *)
Record ParseError : Type := mkParseError {
  Name : string;
  Reason : string
}.

Inductive error : Type :=
| errorString (s : string)                    (* errors.New(s) *)
| NumError (Func Num : string) (Err : error)  (* *strconv.NumError *)
| wrapError (text : string) (err : error)     (* *fmt.wrapError, built by fmt.Errorf with %w *)
| entitiesError (s : string)                  (* entities.Error *)
| errGeneral (e : GeneralError)
| errRequest (e : RequestError)
| errParse (e : ParseError)
| foreignError (text : string).               (* an error of net/http or encoding/json *)

(** What the standard library computes from Unicode tables, and the
    quoting of [strconv.Quote], are taken as given: the program's own
    logic is independent of them. *)
Class GoLib : Type := {
  (** [strings.Map(unicode.ToLower, s)], which [strings.ToLower] calls
      on a string holding a byte >= utf8.RuneSelf *)
  unicodeMapToLower : string -> string;
  (** the rune-by-rune tail of [strings.EqualFold], entered at the
      first position where either string has a byte >= utf8.RuneSelf *)
  unicodeEqualFold : string -> string -> bool;
  (** [strconv.Quote] *)
  Quote : string -> string;
  (** the largest capacity [make([]entities.Proxy, 0, cap)] accepts:
      maxAlloc divided by the size of the element *)
  maxProxyCap : Z
}.

(* ================================================================== *)
(** * package strings *)

Module strings.

Definition isUpperASCII (c : byte) : bool :=
  (65 <=? b2z c) && (b2z c <=? 90).

(** [c += 'a' - 'A'] on an upper-case ASCII byte *)
Definition lowerByte (c : byte) : byte :=
  if isUpperASCII c then z2b (b2z c + 32) else c.

Fixpoint isASCII (s : string) : bool :=
  match s with
  | EmptyString => true
  | String c r => (b2z c <? RuneSelf) && isASCII r
  end.

Fixpoint mapBytes (f : byte -> byte) (s : string) : string :=
  match s with
  | EmptyString => EmptyString
  | String c r => String (f c) (mapBytes f r)
  end.

(** [strings.ToLower]: the ASCII-only path rewrites the bytes 'A'..'Z';
    any other string goes through the Unicode tables. *)
Definition ToLower `{GoLib} (s : string) : string :=
  if isASCII s then mapBytes lowerByte s else unicodeMapToLower s.

(** [strings.EqualFold]: the byte loop of the ASCII fast path.  It
    stops at the end of the shorter string and then compares the
    lengths; a byte >= RuneSelf on either side hands the two
    remainders to the Unicode path. *)
Fixpoint EqualFold `{GoLib} (s t : string) : bool :=
  match s, t with
  | String sr s', String tr t' =>
      if RuneSelf <=? Z.lor (b2z sr) (b2z tr) then unicodeEqualFold s t
      else if b2z tr =? b2z sr then EqualFold s' t'
      else
        let lo := Z.min (b2z sr) (b2z tr) in
        let hi := Z.max (b2z sr) (b2z tr) in
        if (65 <=? lo) && (lo <=? 90) && (hi =? lo + 32)
        then EqualFold s' t'
        else false
  | EmptyString, EmptyString => true
  | _, _ => false
  end.

End strings.

(* ================================================================== *)
(** * package strconv *)

Module strconv.

(** strconv.IntSize on a 64-bit platform *)
Definition IntSize : Z := 64.

Definition ErrRange : error := errorString "value out of range".
Definition ErrSyntax : error := errorString "invalid syntax".

Definition syntaxError (fn str : string) : error := NumError fn str ErrSyntax.
Definition rangeError (fn str : string) : error := NumError fn str ErrRange.

Definition maxUint64 : Z := 2 ^ 64 - 1.

(** [lower(c)]: [c | ('x' - 'X')] *)
Definition lower (c : byte) : Z := Z.lor (b2z c) 32.

(** The digit loop of [ParseUint] for base 10 and bitSize 0, over the
    bytes still to read, with the accumulator [n].  [s0] is the whole
    argument, for the error values. *)
Fixpoint parseUintLoop (s0 : string) (s : string) (n : Z) : Z * option error :=
  match s with
  | EmptyString => (n, None)
  | String c r =>
      let cutoff := maxUint64 / 10 + 1 in
      let maxVal := 2 ^ IntSize - 1 in
      let d :=
        if (48 <=? b2z c) && (b2z c <=? 57) then Some (b2z c - 48)
        else if (97 <=? lower c) && (lower c <=? 122) then Some (lower c - 97 + 10)
        else None in
      match d with
      | None => (0, Some (syntaxError "ParseUint" s0))
      | Some d =>
          if 10 <=? d then (0, Some (syntaxError "ParseUint" s0))
          else if cutoff <=? n then (maxVal, Some (rangeError "ParseUint" s0))
          else
            let n := n * 10 in
            let n1 := (n + d) mod 2 ^ 64 in
            if (n1 <? n) || (maxVal <? n1)
            then (maxVal, Some (rangeError "ParseUint" s0))
            else parseUintLoop s0 r n1
      end
  end.

(** [ParseUint(s, 10, 0)] *)
Definition ParseUint (s : string) : Z * option error :=
  match s with
  | EmptyString => (0, Some (syntaxError "ParseUint" s))
  | _ => parseUintLoop s s 0
  end.

(** [e == ErrRange] *)
Definition isErrRange (e : error) : bool :=
  match e with
  | errorString t => String.eqb t "value out of range"
  | _ => false
  end.

(** The second half of [ParseInt]: what it does with the answer of
    [ParseUint].  [ParseUint] only returns [*NumError] errors; one that
    is not a range error is returned under the name of [ParseInt], a
    range error falls through to the range check with the clamped
    value. *)
Definition parseIntFinish (neg : bool) (s0 : string) (res : Z * option error)
    : Z * option error :=
  let cutoff := 2 ^ (IntSize - 1) in
  let '(un, err) := res in
  let checked :=
    if negb neg && (cutoff <=? un)
    then (cutoff - 1, Some (rangeError "ParseInt" s0))
    else if neg && (cutoff <? un)
    then (- cutoff, Some (rangeError "ParseInt" s0))
    else (if neg then - un else un, None) in
  match err with
  | Some (NumError _ _ e) =>
      if isErrRange e then checked else (0, Some (NumError "ParseInt" s0 e))
  | Some e => (0, Some e)
  | None => checked
  end.

(** [ParseInt(s, 10, 0)]: picks off the sign and converts the rest
    unsigned. *)
Definition ParseInt (s0 : string) : Z * option error :=
  match s0 with
  | EmptyString => (0, Some (syntaxError "ParseInt" s0))
  | String c r =>
      let neg := b2z c =? 45 in
      let s := if (b2z c =? 43) || (b2z c =? 45) then r else s0 in
      parseIntFinish neg s0 (ParseUint s)
  end.

(** The byte loop of the fast path of [Atoi]: [None] on a byte that
    is not a digit. *)
Fixpoint atoiLoop (s : string) (n : Z) : option Z :=
  match s with
  | EmptyString => Some n
  | String c r =>
      let ch := (b2z c - 48) mod 256 in
      if 9 <? ch then None else atoiLoop r (n * 10 + ch)
  end.

(** [strconv.Atoi] *)
Definition Atoi (s : string) : Z * option error :=
  let sLen := len s in
  if (0 <? sLen) && (sLen <? 19) then
    match s with
    | EmptyString => (0, Some (syntaxError "Atoi" s))
    | String c r =>
        let signed := (b2z c =? 45) || (b2z c =? 43) in
        let digits := if signed then r else s in
        if signed && (len digits <? 1) then (0, Some (syntaxError "Atoi" s))
        else
          match atoiLoop digits 0 with
          | None => (0, Some (syntaxError "Atoi" s))
          | Some n => (if b2z c =? 45 then - n else n, None)
          end
    end
  else
    match ParseInt s with
    | (i64, Some (NumError _ num e)) => (i64, Some (NumError "Atoi" num e))
    | res => res
    end.

(** [strconv.Itoa]: the decimal digits, with a leading '-' below zero *)
Definition Itoa (i : Z) : string := NilZero.string_of_int (Z.to_int i).

End strconv.

(* ================================================================== *)
(** * package errors, and the texts of the error values *)

Module errors.

(** A quoted string is compared with [string_dec], an error code with
    [Z.eq_dec]: the comparison [err == target] of comparable errors. *)
Definition error_eq_dec (a b : error) : {a = b} + {a <> b}.
Proof.
  decide equality; try apply string_dec.
  - destruct e as [m1], e0 as [m2]. destruct (string_dec m1 m2).
    + left; congruence.
    + right; congruence.
  - destruct e as [c1 m1], e0 as [c2 m2].
    destruct (Z.eq_dec c1 c2); [| right; congruence].
    destruct (string_dec m1 m2); [left | right]; congruence.
  - destruct e as [n1 r1], e0 as [n2 r2].
    destruct (string_dec n1 n2); [| right; congruence].
    destruct (string_dec r1 r2); [left | right]; congruence.
Defined.

(** [errors.Unwrap]: [*fmt.wrapError] and [*strconv.NumError] are the
    two types with an [Unwrap] method. *)
Definition Unwrap (err : error) : option error :=
  match err with
  | wrapError _ inner => Some inner
  | NumError _ _ inner => Some inner
  | _ => None
  end.

(** [errors.Is(err, target)]: walks the chain of [Unwrap]. *)
Fixpoint Is (err target : error) : bool :=
  if error_eq_dec err target then true
  else
    match err with
    | wrapError _ inner => Is inner target
    | NumError _ _ inner => Is inner target
    | _ => false
    end.

(** The chain that [errors.As] walks, looking for a [RequestError]. *)
Fixpoint findRequestError (err : error) : option RequestError :=
  match err with
  | errRequest e => Some e
  | wrapError _ inner => findRequestError inner
  | NumError _ _ inner => findRequestError inner
  | _ => None
  end.

(** [errors.As(err, &rerr)] with [rerr] a [RequestError]: the first
    error of the chain whose type is [RequestError]; nothing is found
    in a [nil] error. *)
Definition AsRequestError (err : option error) : option RequestError :=
  match err with
  | Some e => findRequestError e
  | None => None
  end.

Fixpoint findGeneralError (err : error) : option GeneralError :=
  match err with
  | errGeneral e => Some e
  | wrapError _ inner => findGeneralError inner
  | NumError _ _ inner => findGeneralError inner
  | _ => None
  end.

(** [errors.As(err, &gerr)] with [gerr] a [GeneralError] *)
Definition AsGeneralError (err : option error) : option GeneralError :=
  match err with
  | Some e => findGeneralError e
  | None => None
  end.

End errors.

(** client/errors.go: [RequestError.Error] *)
Definition RequestError_Error (err : RequestError) : string :=
  let code := strconv.Itoa (code err) in
  if String.eqb (msg err) EmptyString then "unexpected code " ++ code
  else "unexpected code " ++ code ++ ": " ++ msg err.

(** client/errors.go: [GeneralError.Error] *)
Definition GeneralError_Error (err : GeneralError) : string := general_msg err.

(** client/errors.go: [ParseError.Error] *)
Definition ParseError_Error (err : ParseError) : string :=
  "parsing " ++ Name err ++ ": " ++ Reason err.

(** The method [Error()] of each error value. *)
Fixpoint Error `{GoLib} (err : error) : string :=
  match err with
  | errorString s => s
  | NumError fn num inner =>
      "strconv." ++ fn ++ ": parsing " ++ Quote num ++ ": " ++ Error inner
  | wrapError text _ => text
  | entitiesError s => s
  | errGeneral e => GeneralError_Error e
  | errRequest e => RequestError_Error e
  | errParse e => ParseError_Error e
  | foreignError text => text
  end.

Module fmt.

(** [fmt.Errorf(prefix + "%w", err)]: the text is the prefix followed
    by the text of [err], and [Unwrap] gives [err] back. *)
Definition Errorf_w `{GoLib} (prefix : string) (err : error) : error :=
  wrapError (prefix ++ Error err) err.

(** The verb [%v] (and [%s]) on the types the program formats. *)
Class Formatter (T : Type) : Type := { Sprint : T -> string }.

#[global] Instance Formatter_string : Formatter string := {| Sprint := fun s => s |}.
#[global] Instance Formatter_int : Formatter Z := {| Sprint := strconv.Itoa |}.

End fmt.

(* ================================================================== *)
(** * package time *)

Module time.

(** A [time.Time] as the instant it denotes: seconds and nanoseconds
    since January 1, 1970 UTC. *)
Record Time : Type := mkTime { sec : Z; nsec : Z }.

(** The zero [time.Time]: January 1, year 1, 00:00:00 UTC. *)
Definition zero : Time := {| sec := -62135596800; nsec := 0 |}.

(** The UNIX epoch. *)
Definition epoch : Time := {| sec := 0; nsec := 0 |}.

(** [time.Unix(sec, nsec)] *)
Definition Unix (sec nsec : Z) : Time :=
  if (nsec <? 0) || (1000000000 <=? nsec) then
    let n := Z.quot nsec 1000000000 in
    let sec := sec + n in
    let nsec := nsec - n * 1000000000 in
    if nsec <? 0 then {| sec := sec - 1; nsec := nsec + 1000000000 |}
    else {| sec := sec; nsec := nsec |}
  else {| sec := sec; nsec := nsec |}.

End time.

(* ================================================================== *)
(** * package entities (pkg/entities/proxy.go) *)

Module entities.

Definition ErrWrongProxyType : error := entitiesError "wrong proxy type".

Inductive ProxyType : Type :=
| ProxyTypeUnknown
| ProxyTypeHTTP
| ProxyTypeSocks.

(** The [uint8] behind a [ProxyType] (iota). *)
Definition ProxyType_uint8 (t : ProxyType) : Z :=
  match t with
  | ProxyTypeUnknown => 0
  | ProxyTypeHTTP => 1
  | ProxyTypeSocks => 2
  end.

Definition ProxyType_MarshalText `{GoLib} (t : ProxyType) : option string * option error :=
  match t with
  | ProxyTypeHTTP => (Some "http", None)
  | ProxyTypeSocks => (Some "socks", None)
  | _ => (None,
          Some (fmt.Errorf_w ("type " ++ strconv.Itoa (ProxyType_uint8 t) ++ ": ")
                             ErrWrongProxyType))
  end.

Definition ParseProxyType `{GoLib} (value : string) : ProxyType * option error :=
  if String.eqb value "http" then (ProxyTypeHTTP, None)
  else if String.eqb value "socks" then (ProxyTypeSocks, None)
  else (ProxyTypeUnknown,
        Some (fmt.Errorf_w ("type " ++ value ++ ": ") ErrWrongProxyType)).

(** [Sensitive[T]] *)
Record Sensitive (T : Type) : Type := mkSensitive {
  value : T;
  allow : bool
}.

Arguments mkSensitive {T} value allow.
Arguments value {T} s.
Arguments allow {T} s.

Definition NewSensitive {T : Type} (v : T) : Sensitive T :=
  {| value := v; allow := false |}.

Definition Sensitive_MarshalText {T : Type} `{fmt.Formatter T}
    (s : Sensitive T) : string * option error :=
  if allow s then (fmt.Sprint (value s), None)
  else ("***", None).

(** [Allow] has a pointer receiver: it updates the value in place;
    here it returns the updated value. *)
Definition Sensitive_Allow {T : Type} (s : Sensitive T) : Sensitive T :=
  {| value := value s; allow := true |}.

Record Proxy : Type := mkProxy {
  ID : string;
  Host : string;
  Port : Z;                       (* uint16 *)
  User : string;
  Password : Sensitive string;
  Type_ : ProxyType;              (* the field [Type] *)
  Country : string;
  Date : time.Time;
  ExpireDate : time.Time;
  Description : string;
  Active : bool
}.

(** [entities.Proxy{}] *)
Definition Proxy_zero : Proxy :=
  {| ID := EmptyString; Host := EmptyString; Port := 0; User := EmptyString;
     Password := {| value := EmptyString; allow := false |};
     Type_ := ProxyTypeUnknown; Country := EmptyString;
     Date := time.zero; ExpireDate := time.zero;
     Description := EmptyString; Active := false |}.

Definition ProxyURL (p : Proxy) : string :=
  let scheme :=
    match Type_ p with
    | ProxyTypeHTTP => "http"
    | ProxyTypeSocks => "socks5"
    | _ => EmptyString
    end in
  scheme ++ "://" ++ User p ++ ":" ++ value (Password p) ++ "@" ++ Host p
         ++ ":" ++ strconv.Itoa (Port p).

End entities.

(* ================================================================== *)
(** * Outcomes and effects

    A call either returns or panics.  The effects of the client are the
    records handed to the logger, the one HTTP round trip and the
    decoding of the body; they are kept, in order, in a trace that the
    effectful functions thread through. *)

Inductive Outcome (A : Type) : Type :=
| Return (a : A)
| Panic (reason : string).

Arguments Return {A} a.
Arguments Panic {A} reason.

(** The dynamic values passed as [any] to the logger. *)
Inductive any : Type :=
| anyString (s : string)
| anyInt (i : Z)
| anyDuration (ns : Z).

(** client.KeyValue (pkg/client/logger.go) *)
Record KeyValue : Type := mkKeyValue { Key : string; Value : any }.

Definition LogField (key : string) (value : any) : KeyValue :=
  {| Key := key; Value := value |}.

(** One record written by a logger. *)
Record LogRecord : Type := mkLogRecord {
  level : string;
  message : string;
  fields : list KeyValue
}.

Inductive Event : Type :=
| Logged (r : LogRecord)        (* a record a logger wrote *)
| RoundTrip (url : string)      (* hclient.Do *)
| Decoded (body : string).      (* json.Unmarshal *)

Definition M (A : Type) : Type := list Event -> Outcome A * list Event.

Definition ret {A : Type} (a : A) : M A := fun tr => (Return a, tr).

Definition bind {A B : Type} (m : M A) (k : A -> M B) : M B :=
  fun tr =>
    match m tr with
    | (Return a, tr') => k a tr'
    | (Panic r, tr') => (Panic r, tr')
    end.

Definition emit (evs : list Event) : M unit :=
  fun tr => (Return tt, (tr ++ evs)%list).

Definition emitLog (rs : list LogRecord) : M unit := emit (map Logged rs).

Definition lift {A : Type} (o : Outcome A) : M A := fun tr => (o, tr).

Declare Scope go_scope.
Delimit Scope go_scope with go.
Notation "x <- m ;; k" := (bind m (fun x => k))
  (at level 61, m at next level, right associativity) : go_scope.
Notation "m ;;; k" := (bind m (fun _ => k))
  (at level 61, right associativity) : go_scope.

(** The interface client.Logger: what each method writes.  A value of
    this type is a logger that is there and whose methods return; a nil
    interface value, on which a call panics, is not a value of it. *)
Record Logger : Type := mkLogger {
  Debug : string -> list KeyValue -> list LogRecord;
  Info : string -> list KeyValue -> list LogRecord;
  Error_ : string -> list KeyValue -> list LogRecord   (* the method [Error] *)
}.

(** client.noopLogger *)
Definition noopLogger : Logger :=
  {| Debug := fun _ _ => []; Info := fun _ _ => []; Error_ := fun _ _ => [] |}.

(** A logger that records every call, as the adapters of main.go and of
    zerolog do when their level is enabled. *)
Definition recordingLogger : Logger :=
  {| Debug := fun m a => [mkLogRecord "debug" m a];
     Info := fun m a => [mkLogRecord "info" m a];
     Error_ := fun m a => [mkLogRecord "error" m a] |}.

(* ================================================================== *)
(** * package client (pkg/client) *)

Module client.

Local Open Scope go_scope.

Definition defaultAddr : string := "https://proxy6.net".

Inductive ProxyState : Type :=
| ProxyStateUnknown
| ProxyStateActive
| ProxyStateExpired
| ProxyStateExpiring
| ProxyStateAll.

Definition ProxyState_String (s : ProxyState) : string :=
  match s with
  | ProxyStateAll => "all"
  | ProxyStateExpiring => "expiring"
  | ProxyStateExpired => "expired"
  | ProxyStateActive => "active"
  | _ => EmptyString
  end.

Definition ProxyState_MarshalText (s : ProxyState) : string := ProxyState_String s.

(** The [uint8] behind each constant (iota). *)
Definition ProxyState_uint8 (s : ProxyState) : Z :=
  match s with
  | ProxyStateUnknown => 0
  | ProxyStateActive => 1
  | ProxyStateExpired => 2
  | ProxyStateExpiring => 3
  | ProxyStateAll => 4
  end.

(** [String] on any value of the exported [uint8] type, a declared
    constant or not: the [switch] sends every value that is not one of
    the four named constants to its default branch. *)
Definition ProxyState_String_uint8 (v : Z) : string :=
  if v =? ProxyState_uint8 ProxyStateAll then "all"
  else if v =? ProxyState_uint8 ProxyStateExpiring then "expiring"
  else if v =? ProxyState_uint8 ProxyStateExpired then "expired"
  else if v =? ProxyState_uint8 ProxyStateActive then "active"
  else EmptyString.

Definition newGeneralError (m : string) : error := errGeneral {| general_msg := m |}.

Definition newParseError (name reason : string) : ParseError :=
  {| Name := name; Reason := reason |}.

(** The [switch] compares the lowered value with each case in turn;
    the named result [state] is still its zero value in the default
    branch. *)
Definition ParseProxyState `{GoLib} (value : string) : ProxyState * option error :=
  let state := ProxyStateUnknown in
  let v := strings.ToLower value in
  if String.eqb v (ProxyState_String ProxyStateAll) then (ProxyStateAll, None)
  else if String.eqb v (ProxyState_String ProxyStateExpiring) then (ProxyStateExpiring, None)
  else if String.eqb v (ProxyState_String ProxyStateExpired) then (ProxyStateExpired, None)
  else if String.eqb v (ProxyState_String ProxyStateActive) then (ProxyStateActive, None)
  else (state, Some (errParse (newParseError "state" ("unsupported value " ++ value)))).

(** The raw record of the provider. *)
Record proxy : Type := mkproxy {
  ID : string;
  Host : string;
  Port : string;
  User : string;
  Pass : string;
  Type_ : string;                 (* the field [Type] *)
  Country : string;
  Date : string;
  DateEnd : string;
  Unixtime : Z;                   (* int64 *)
  UnixtimeEnd : Z;                (* int64 *)
  Descr : string;
  Active : string
}.

Record baseResponse : Type := mkbaseResponse {
  Status : string;
  ErrorID : Z;                    (* int *)
  Error : string
}.

Definition isError (b : baseResponse) : bool :=
  String.eqb (Status b) "no" || (0 <? ErrorID b)
  || negb (String.eqb (Error b) EmptyString).

Record proxyResponse : Type := mkproxyResponse {
  base : baseResponse;            (* the embedded [baseResponse] *)
  ListCount : Z;                  (* int *)
  List : list proxy               (* a slice; [nil] is the empty list *)
}.

(** The zero value of [proxyResponse]. *)
Definition proxyResponse_zero : proxyResponse :=
  {| base := {| Status := EmptyString; ErrorID := 0; Error := EmptyString |};
     ListCount := 0; List := [] |}.

Record ListProxyParams : Type := mkListProxyParams {
  Descr_ : string;                (* the field [Descr] *)
  State : ProxyState
}.

(** What [net/http], [net/url] and [encoding/json] do for the client. *)
Class Net : Type := {
  Context : Type;
  Request : Type;
  (** [http.NewRequestWithContext(ctx, http.MethodGet, url, nil)] *)
  NewRequestWithContext : Context -> string -> string -> Request + error;
  (** [request.URL.RawQuery = q] *)
  setRawQuery : Request -> string -> Request;
  (** [req.URL.String()] *)
  URLString : Request -> string;
  (** [url.QueryEscape] *)
  QueryEscape : string -> string;
  (** [json.Unmarshal(body, &response)]: the envelope after decoding,
      and the decoding error *)
  Unmarshal : string -> proxyResponse -> proxyResponse * option error
}.

(** [*http.Response], after [ioutil.ReadAll(resp.Body)], whose error
    the client drops *)
Record Response : Type := mkResponse {
  StatusCode : Z;
  Body : string
}.

(** [*http.Client]: the answer of [Do] and the time it took. *)
Definition http_Client `{Net} : Type := Request -> (Response + error) * Z.

Definition GetLogger `{Net} : Type := Context -> Logger.

Definition GetLoggerNoop `{Net} : GetLogger := fun _ => noopLogger.

Record httpClient `{Net} : Type := mkhttpClient {
  addr : string;
  key : string;
  hclient : http_Client;
  logF : GetLogger
}.

Definition optionF `{Net} : Type := httpClient -> httpClient * option error.

Definition WithAddr `{Net} (a : string) : optionF :=
  fun hc =>
    if String.eqb a EmptyString then (hc, Some (newGeneralError "addr is empty"))
    else ({| addr := a; key := key hc; hclient := hclient hc; logF := logF hc |}, None).

(** [logFunc] is a function value, [None] when it is [nil]. *)
Definition WithLoggerFunc `{Net} (logFunc : option GetLogger) : optionF :=
  fun hc =>
    match logFunc with
    | None => (hc, Some (newGeneralError "get logger func is nil"))
    | Some f => ({| addr := addr hc; key := key hc; hclient := hclient hc; logF := f |}, None)
    end.

Fixpoint applyOpts `{GoLib} `{Net} (idx : Z) (opts : list optionF) (hc : httpClient)
    : option httpClient * option error :=
  match opts with
  | [] => (Some hc, None)
  | opt :: rest =>
      match opt hc with
      | (_, Some err) =>
          (None, Some (fmt.Errorf_w ("applying " ++ strconv.Itoa idx ++ " opt: ") err))
      | (hc', None) => applyOpts (idx + 1) rest hc'
      end
  end.

(** [defaultClient] stands for [http.DefaultClient]. *)
Definition NewHTTPClient `{GoLib} `{Net} (defaultClient : http_Client)
    (apiKey : string) (opts : list optionF) : option httpClient * option error :=
  applyOpts 0 opts
    {| addr := defaultAddr; key := apiKey; hclient := defaultClient; logF := GetLoggerNoop |}.

Definition StatusBadRequest : Z := 400.

(** [dst] is the envelope behind the pointer; the function returns it
    as it is when the call ends, with the error. *)
Definition doRequest `{GoLib} `{Net} (c : http_Client) (req : Request) (log : Logger)
    (dst : proxyResponse) : M (proxyResponse * option error) :=
  emitLog (Debug log "sending request" [LogField "req_url" (anyString (URLString req))]) ;;;
  emit [RoundTrip (URLString req)] ;;;
  match c req with
  | (inr err, _) => ret (dst, Some (fmt.Errorf_w "doing request: " err))
  | (inl resp, took) =>
      let body := Body resp in
      emitLog (Info log "request processed"
                 [LogField "code" (anyInt (StatusCode resp));
                  LogField "duration" (anyDuration took);
                  LogField "body" (anyString body)]) ;;;
      if StatusBadRequest <=? StatusCode resp then
        ret (dst, Some (errRequest {| code := StatusCode resp; msg := body |}))
      else
        emit [Decoded body] ;;;
        match Unmarshal body dst with
        | (dst', Some err) => ret (dst', Some (fmt.Errorf_w "decoding json: " err))
        | (dst', None) => ret (dst', None)
        end
  end.

(** [values.Encode()]: the three keys in sorted order. *)
Definition encodeValues `{Net} (state desc : string) : string :=
  "descr=" ++ QueryEscape desc ++ "&nokey=" ++ QueryEscape EmptyString
           ++ "&state=" ++ QueryEscape state.

(** The template holds "{api_key}" once, so [strings.ReplaceAll] puts
    the key between the two halves. *)
Definition loadAllProxies `{GoLib} `{Net} (c : httpClient) (ctx : Context)
    (state : ProxyState) (desc : string) : M (proxyResponse * option error) :=
  let response := proxyResponse_zero in
  let reqURL := addr c ++ ("/api/" ++ key c ++ "/getproxy") in
  match NewRequestWithContext ctx "GET" reqURL with
  | inr err => ret (response, Some (fmt.Errorf_w "making request: " err))
  | inl request =>
      let request := setRawQuery request (encodeValues (ProxyState_String state) desc) in
      let log := logF c ctx in
      r <- doRequest (hclient c) request log response ;;
      let '(response, err) := r in
      match err with
      | Some err => ret (response, Some err)
      | None =>
          if isError (base response) then
            ret (response,
                 Some (errRequest {| code := ErrorID (base response);
                                     msg := Error (base response) |}))
          else ret (response, None)
      end
  end.

Definition mapProxyToEntity `{GoLib} (p : proxy) : entities.Proxy * option error :=
  match strconv.Atoi (Port p) with
  | (_, Some err) => (entities.Proxy_zero, Some (fmt.Errorf_w "parsing port: " err))
  | (port, None) =>
      match entities.ParseProxyType (Type_ p) with
      | (_, Some err) => (entities.Proxy_zero, Some (fmt.Errorf_w "parsing proxy type: " err))
      | (proxyType, None) =>
          ({| entities.ID := ID p;
              entities.Host := Host p;
              entities.Port := port mod 2 ^ 16;           (* uint16(port) *)
              entities.User := User p;
              entities.Password := entities.NewSensitive (Pass p);
              entities.Type_ := proxyType;
              entities.Country := Country p;
              entities.Date := time.Unix (Unixtime p) 0;
              entities.ExpireDate := time.Unix (UnixtimeEnd p) 0;
              entities.Description := Descr p;
              entities.Active := strings.EqualFold (Active p) "1" |}, None)
      end
  end.

(** The [range] loop of [mapProxyResponse], with the slice built so far. *)
Fixpoint mapItems `{GoLib} (items : list proxy) (proxies : list entities.Proxy)
    : option (list entities.Proxy) * option error :=
  match items with
  | [] => (Some proxies, None)
  | item :: rest =>
      match mapProxyToEntity item with
      | (_, Some err) => (None, Some err)
      | (p, None) => mapItems rest (proxies ++ [p])%list
      end
  end.

(** [make([]entities.Proxy, 0, cap)] panics on a capacity below the
    length or beyond what can be allocated. *)
Definition make_ok `{GoLib} (cap : Z) : bool := (0 <=? cap) && (cap <=? maxProxyCap).

Definition mapProxyResponse `{GoLib} (response : proxyResponse)
    : Outcome (option (list entities.Proxy) * option error) :=
  if make_ok (ListCount response) then
    Return (mapItems (List response) [])
  else Panic "runtime error: makeslice: cap out of range".

Definition ListProxies `{GoLib} `{Net} (c : httpClient) (ctx : Context)
    (params : ListProxyParams) : M (option (list entities.Proxy) * option error) :=
  r <- loadAllProxies c ctx (State params) (Descr_ params) ;;
  let '(resp, err) := r in
  match err with
  | Some err => ret (None, Some err)
  | None =>
      m <- lift (mapProxyResponse resp) ;;
      let '(proxies, err) := m in
      match err with
      | Some err => ret (None, Some err)
      | None => ret (proxies, None)
      end
  end.

Definition GetCode (err : option error) : Z :=
  match errors.AsRequestError err with
  | Some rerr => code rerr
  | None => -1
  end.

Definition GetMessage (err : option error) : string :=
  match errors.AsRequestError err with
  | Some rerr => msg rerr
  | None =>
      match errors.AsGeneralError err with
      | Some gerr => general_msg gerr
      | None => EmptyString
      end
  end.

End client.

(* ================================================================== *)
(** * Instances for running the definitions

    [sampleLib] fills the library tables with stand-ins; on ASCII-only
    strings the definitions never consult the Unicode ones, so what
    they compute there does not depend on the stand-ins.  [sampleNet]
    builds requests from unescaped text and decodes bodies with a given
    function. *)

Definition quoteByte : byte := ascii_of_nat 34.

Definition sampleLib : GoLib :=
  {| unicodeMapToLower := strings.mapBytes strings.lowerByte;
     unicodeEqualFold := fun _ _ => false;
     Quote := fun s => String quoteByte (s ++ String quoteByte EmptyString);
     maxProxyCap := 2 ^ 48 / 176 |}.

Definition sampleNet (decode : string -> option client.proxyResponse) : client.Net :=
  {| client.Context := unit;
     client.Request := string * string;
     client.NewRequestWithContext := fun _ _ u => inl (u, EmptyString);
     client.setRawQuery := fun r q => (fst r, q);
     client.URLString := fun r => fst r ++ "?" ++ snd r;
     client.QueryEscape := fun v => v;
     client.Unmarshal := fun body dst =>
       match decode body with
       | Some r => (r, None)
       | None => (dst, Some (foreignError "invalid character"))
       end |}.

(** A transport that answers every request with one response. *)
Definition answering (decode : string -> option client.proxyResponse)
    (status : Z) (body : string) : @client.http_Client (sampleNet decode) :=
  fun _ => (inl {| client.StatusCode := status; client.Body := body |}, 1000).

Definition sampleClient (decode : string -> option client.proxyResponse)
    (status : Z) (body : string) : @client.httpClient (sampleNet decode) :=
  {| client.addr := client.defaultAddr;
     client.key := "k";
     client.hclient := answering decode status body;
     client.logF := fun _ => recordingLogger |}.

(** A raw record with the given port, type and active strings. *)
Definition rawProxy (port type active : string) : client.proxy :=
  {| client.ID := "1"; client.Host := "10.0.0.1"; client.Port := port;
     client.User := "u"; client.Pass := "p"; client.Type_ := type;
     client.Country := "ru"; client.Date := EmptyString;
     client.DateEnd := EmptyString;
     client.Unixtime := 0; client.UnixtimeEnd := 0;
     client.Descr := EmptyString; client.Active := active |}.

(** An envelope that reports success. *)
Definition okEnvelope (count : Z) (items : list client.proxy) : client.proxyResponse :=
  {| client.base := {| client.Status := "yes"; client.ErrorID := 0;
                       client.Error := EmptyString |};
     client.ListCount := count; client.List := items |}.

(** The methods of [Sensitive] as operations on one wrapper: [Allow]
    updates it, [MarshalText] has a value receiver and leaves it as it
    is. *)
Inductive SensitiveOp : Type :=
| opAllow
| opMarshalText.

Definition isAllow (op : SensitiveOp) : bool :=
  match op with opAllow => true | opMarshalText => false end.

Definition applyOp {T : Type} (s : entities.Sensitive T) (op : SensitiveOp)
    : entities.Sensitive T :=
  match op with
  | opAllow => entities.Sensitive_Allow s
  | opMarshalText => s
  end.

Definition applyOps {T : Type} (ops : list SensitiveOp) (s : entities.Sensitive T)
    : entities.Sensitive T :=
  fold_left applyOp ops s.

(* ================================================================== *)
(** * Vocabulary of the properties *)

(** [s] is [w] up to the case of ASCII letters: byte by byte, either the
    same byte, or the upper-case form of a lower-case letter of [w]. *)
Fixpoint asciiCaseVariant (s w : string) : bool :=
  match s, w with
  | EmptyString, EmptyString => true
  | String c s', String d w' =>
      (Ascii.eqb c d
       || ((97 <=? b2z d) && (b2z d <=? 122) && (b2z c =? b2z d - 32)))
      && asciiCaseVariant s' w'
  | _, _ => false
  end.

(** The four names of the state filter and their values. *)
Definition stateNames : list (string * client.ProxyState) :=
  [("all", client.ProxyStateAll); ("active", client.ProxyStateActive);
   ("expired", client.ProxyStateExpired); ("expiring", client.ProxyStateExpiring)].

(** No byte of [w] is an upper-case ASCII letter. *)
Fixpoint noUpper (w : string) : bool :=
  match w with
  | EmptyString => true
  | String d w' => negb (strings.isUpperASCII d) && noUpper w'
  end.

(** The string is empty or starts with an ASCII byte. *)
Definition startsASCII (s : string) : bool :=
  match s with
  | EmptyString => true
  | String c _ => b2z c <? RuneSelf
  end.

(** The mapping of a record did not return an error. *)
Definition maps `{GoLib} (p : client.proxy) : bool :=
  match snd (client.mapProxyToEntity p) with
  | None => true
  | Some _ => false
  end.

(** The request that [loadAllProxies] builds for a client and its
    parameters: the address of the list operation with the three query
    values. *)
Definition listURL `{client.Net} (c : client.httpClient) : string :=
  client.addr c ++ ("/api/" ++ client.key c ++ "/getproxy").

Definition listQuery `{client.Net} (params : client.ListProxyParams) : string :=
  client.encodeValues (client.ProxyState_String (client.State params))
                      (client.Descr_ params).

(** What [doRequest] writes before it looks at the response, and no
    decoding among it. *)
Definition sentEvents `{client.Net} (log : Logger) (req : client.Request)
    (resp : client.Response) (took : Z) : list Event :=
  (map Logged (Debug log "sending request"
                 [LogField "req_url" (anyString (client.URLString req))])
   ++ [RoundTrip (client.URLString req)]
   ++ map Logged (Info log "request processed"
                    [LogField "code" (anyInt (client.StatusCode resp));
                     LogField "duration" (anyDuration took);
                     LogField "body" (anyString (client.Body resp))]))%list.

Definition isDecoded (ev : Event) : bool :=
  match ev with Decoded _ => true | _ => false end.

(** The parameters of the command line's default: active proxies, no
    description filter. *)
Definition activeParams : client.ListProxyParams :=
  {| client.Descr_ := EmptyString; client.State := client.ProxyStateActive |}.

(** A decoder that always produces the given envelope. *)
Definition decodeTo (env : client.proxyResponse) : string -> option client.proxyResponse :=
  fun _ => Some env.

(** An envelope in which the provider reports error 100. *)
Definition errorEnvelope : client.proxyResponse :=
  {| client.base := {| client.Status := "no"; client.ErrorID := 100;
                       client.Error := "Error key" |};
     client.ListCount := 0; client.List := [] |}.

(** ** Integer literals

    What [strconv.Atoi] accepts, said without its loops: an optional
    sign, then one or more decimal digits; the value is read in base
    ten. *)

Definition isDigit (c : byte) : bool := (48 <=? b2z c) && (b2z c <=? 57).

Fixpoint allDigits (s : string) : bool :=
  match s with
  | EmptyString => true
  | String c r => isDigit c && allDigits r
  end.

(** The value of the digits of [s] after the digits already read as [n]. *)
Fixpoint decimalAcc (s : string) (n : Z) : Z :=
  match s with
  | EmptyString => n
  | String c r => decimalAcc r (n * 10 + (b2z c - 48))
  end.

Definition decimal (s : string) : Z := decimalAcc s 0.

Definition digitRun (s : string) : bool :=
  match s with
  | EmptyString => false
  | _ => allDigits s
  end.

Definition intLiteral (s : string) : option Z :=
  match s with
  | EmptyString => None
  | String c r =>
      if b2z c =? 43 then (if digitRun r then Some (decimal r) else None)
      else if b2z c =? 45 then (if digitRun r then Some (- decimal r) else None)
      else if allDigits s then Some (decimal s) else None
  end.

(** The range of [int]. *)
Definition inInt (n : Z) : Prop := - 2 ^ 63 <= n <= 2 ^ 63 - 1.

(** ** Options and traces *)

(** The options a caller can build: [optionF] and [httpClient] are
    unexported, so [WithAddr] and [WithLoggerFunc] are the only sources
    of an option outside the package. *)
Inductive clientOption `{client.Net} : Type :=
| optAddr (a : string)
| optLoggerFunc (logFunc : option client.GetLogger).

Definition optionOf `{client.Net} (o : clientOption) : client.optionF :=
  match o with
  | optAddr a => client.WithAddr a
  | optLoggerFunc f => client.WithLoggerFunc f
  end.

(** The option has the argument that its constructor asks for. *)
Definition validOption `{client.Net} (o : clientOption) : bool :=
  match o with
  | optAddr a => negb (String.eqb a EmptyString)
  | optLoggerFunc f => match f with Some _ => true | None => false end
  end.

(** The message of the general error of an option that is not valid. *)
Definition optionMessage `{client.Net} (o : clientOption) : string :=
  match o with
  | optAddr _ => "addr is empty"
  | optLoggerFunc _ => "get logger func is nil"
  end.

(** The address left by the options, starting from [a]: that of the
    last address option. *)
Fixpoint lastAddr `{client.Net} (opts : list clientOption) (a : string) : string :=
  match opts with
  | [] => a
  | optAddr b :: rest => lastAddr rest b
  | optLoggerFunc _ :: rest => lastAddr rest a
  end.

(** The logger function left by the options, starting from [f]. *)
Fixpoint lastLogF `{client.Net} (opts : list clientOption) (f : client.GetLogger)
    : client.GetLogger :=
  match opts with
  | [] => f
  | optLoggerFunc (Some g) :: rest => lastLogF rest g
  | _ :: rest => lastLogF rest f
  end.

(** The position, counted from [idx], and the value of the first option
    that is not valid. *)
Fixpoint firstInvalid `{client.Net} (opts : list clientOption) (idx : Z)
    : option (Z * clientOption) :=
  match opts with
  | [] => None
  | o :: rest => if validOption o then firstInvalid rest (idx + 1) else Some (idx, o)
  end.

Definition isRoundTrip (ev : Event) : bool :=
  match ev with RoundTrip _ => true | _ => false end.

Definition isLogged (ev : Event) : bool :=
  match ev with Logged _ => true | _ => false end.

(** The number of calls of [hclient.Do] in a trace: the [RoundTrip]
    events.  What the transport does within one call (redirects, for
    one) is not counted. *)
Definition countRoundTrips (tr : list Event) : nat :=
  List.length (filter isRoundTrip tr).

(** The number of decodings in a trace. *)
Definition countDecoded (tr : list Event) : nat :=
  List.length (filter isDecoded tr).

(** Every decoding in the trace comes after a call of [hclient.Do];
    [seen] says whether such a call came before the trace. *)
Fixpoint decodedAfterDo (seen : bool) (tr : list Event) : bool :=
  match tr with
  | [] => true
  | RoundTrip _ :: rest => decodedAfterDo true rest
  | Decoded _ :: rest => seen && decodedAfterDo seen rest
  | Logged _ :: rest => decodedAfterDo seen rest
  end.

(** The client with another logger function. *)
Definition setLogF `{client.Net} (c : client.httpClient) (f : client.GetLogger)
    : client.httpClient :=
  {| client.addr := client.addr c; client.key := client.key c;
     client.hclient := client.hclient c; client.logF := f |}.

(** The proxy with its password wrapper replaced. *)
Definition setPassword (p : entities.Proxy) (s : entities.Sensitive string)
    : entities.Proxy :=
  {| entities.ID := entities.ID p; entities.Host := entities.Host p;
     entities.Port := entities.Port p; entities.User := entities.User p;
     entities.Password := s; entities.Type_ := entities.Type_ p;
     entities.Country := entities.Country p; entities.Date := entities.Date p;
     entities.ExpireDate := entities.ExpireDate p;
     entities.Description := entities.Description p;
     entities.Active := entities.Active p |}.

(** A transport that fails on every request. *)
Definition refusing (decode : string -> option client.proxyResponse) (err : error)
    : @client.http_Client (sampleNet decode) :=
  fun _ => (inr err, 5).

(** A decoder that rejects every body. *)
Definition decodeNothing : string -> option client.proxyResponse := fun _ => None.

(** An envelope without a status and with a negative error_id. *)
Definition oddEnvelope : client.proxyResponse :=
  {| client.base := {| client.Status := EmptyString; client.ErrorID := -5;
                       client.Error := EmptyString |};
     client.ListCount := 0; client.List := [rawProxy "80" "http" "1"] |}.

(** Three options of which the second, an empty address, is not valid. *)
Definition badOptions : list (@clientOption (sampleNet decodeNothing)) :=
  [optLoggerFunc (Some (fun _ => noopLogger)); optAddr EmptyString; optLoggerFunc None].

(** ** A string with a rune outside ASCII *)

(** [strings.Map(unicode.ToLower, s)] on the strings made of ASCII
    bytes and of the rune U+0130, LATIN CAPITAL LETTER I WITH DOT ABOVE,
    whose UTF-8 bytes are C4 B0: Go's tables take 'A'..'Z' to 'a'..'z'
    and U+0130 to U+0069, the letter 'i', and leave the other ASCII
    runes as they are.  The bytes of any other rune are copied; the
    function is not meant for them. *)
Fixpoint lowerDotted (s : string) : string :=
  match s with
  | EmptyString => EmptyString
  | String c r =>
      match r with
      | String d r' =>
          if (b2z c =? 196) && (b2z d =? 176) then String "i" (lowerDotted r')
          else String (strings.lowerByte c) (lowerDotted r)
      | EmptyString => String (strings.lowerByte c) EmptyString
      end
  end.

(** [sampleLib] with the lower-case mapping of [lowerDotted]. *)
Definition dottedLib : GoLib :=
  {| unicodeMapToLower := lowerDotted;
     unicodeEqualFold := @unicodeEqualFold sampleLib;
     Quote := @Quote sampleLib;
     maxProxyCap := @maxProxyCap sampleLib |}.

(** "ACTIVE" written with U+0130 for its fourth letter. *)
Definition dottedACTIVE : string :=
  "ACT" ++ String (z2b 196) (String (z2b 176) "VE").

(** A [Net] in which no request can be built. *)
Definition unbuildableNet : client.Net :=
  {| client.Context := unit;
     client.Request := unit;
     client.NewRequestWithContext := fun _ _ _ => inr (foreignError "invalid URL");
     client.setRawQuery := fun r _ => r;
     client.URLString := fun _ => EmptyString;
     client.QueryEscape := fun v => v;
     client.Unmarshal := fun _ dst => (dst, None) |}.

Definition unbuildableClient : @client.httpClient unbuildableNet :=
  {| client.addr := "::"; client.key := "k";
     client.hclient := fun _ => (inr (foreignError "unreachable"), 0);
     client.logF := fun _ => recordingLogger |}.

(* ================================================================== *)
(** * Properties *)

(** ** Facts about strings and bytes *)

Lemma eqb_false_of_neq {a b : string} : a <> b -> String.eqb a b = false.
Proof. intro H. apply String.eqb_neq. exact H. Qed.

Lemma append_assoc (a b c : string) : (a ++ b) ++ c = a ++ (b ++ c).
Proof. induction a as [| x a IH]; simpl; [reflexivity | now rewrite IH]. Qed.

Lemma b2z_range (c : byte) : 0 <= b2z c < 256.
Proof.
  unfold b2z. pose proof (N_ascii_bounded c) as H. lia.
Qed.

Lemma b2z_inj (c d : byte) : b2z c = b2z d -> c = d.
Proof.
  unfold b2z. intro H. apply N2Z.inj in H.
  rewrite <- (ascii_N_embedding c), <- (ascii_N_embedding d). now rewrite H.
Qed.

Lemma b2z_z2b (z : Z) : 0 <= z < 256 -> b2z (z2b z) = z.
Proof.
  intro H. unfold b2z, z2b. rewrite Z.mod_small by lia.
  rewrite N_ascii_embedding by lia. lia.
Qed.

(** ** ParseProxyType *)

(** C6: [ParseProxyType] succeeds exactly on "http" and "socks", with the
    HTTP and SOCKS values; any other string, "HTTP" among them, gives the
    unknown type and an error that wraps the sentinel [ErrWrongProxyType]
    with the text "type <value>: wrong proxy type". *)
Theorem C6_ParseProxyType_exact :
  forall (L : GoLib) (value : string),
    (snd (entities.ParseProxyType value) = None <-> value = "http" \/ value = "socks")
    /\ entities.ParseProxyType "http" = (entities.ProxyTypeHTTP, None)
    /\ entities.ParseProxyType "socks" = (entities.ProxyTypeSocks, None)
    /\ (value <> "http" -> value <> "socks" ->
        exists err,
          entities.ParseProxyType value = (entities.ProxyTypeUnknown, Some err)
          /\ errors.Is err entities.ErrWrongProxyType = true
          /\ errors.Unwrap err = Some entities.ErrWrongProxyType
          /\ Error err = "type " ++ value ++ ": wrong proxy type")
    /\ (exists err, entities.ParseProxyType "HTTP" = (entities.ProxyTypeUnknown, Some err)
                    /\ errors.Is err entities.ErrWrongProxyType = true).
Proof.
  intros L value. split; [split |].
  - unfold entities.ParseProxyType.
    destruct (String.eqb_spec value "http") as [-> | Hh]; [now left |].
    destruct (String.eqb_spec value "socks") as [-> | Hs]; [now right |].
    simpl. discriminate.
  - intros [-> | ->]; reflexivity.
  - split; [reflexivity |]. split; [reflexivity |]. split.
    + intros Hh Hs. unfold entities.ParseProxyType.
      rewrite (eqb_false_of_neq Hh), (eqb_false_of_neq Hs).
      eexists. split; [reflexivity |].
      split; [reflexivity |]. split; [reflexivity |].
      unfold fmt.Errorf_w. simpl. now rewrite append_assoc.
    + eexists. split; reflexivity.
Qed.

Lemma C6_witness_upper_case_rejected :
  exists err,
    @entities.ParseProxyType sampleLib "HTTP" = (entities.ProxyTypeUnknown, Some err)
    /\ errors.Is err entities.ErrWrongProxyType = true
    /\ errors.Unwrap err = Some entities.ErrWrongProxyType
    /\ @Error sampleLib err = "type " ++ "HTTP" ++ ": wrong proxy type".
Proof.
  apply (proj1 (proj2 (proj2 (proj2 (C6_ParseProxyType_exact sampleLib "HTTP")))));
    discriminate.
Defined.

(** ** Sensitive *)

Lemma applyOps_allow_stays (T : Type) (ops : list SensitiveOp) (s : entities.Sensitive T) :
  entities.allow s = true -> entities.allow (applyOps ops s) = true.
Proof.
  revert s. induction ops as [| op ops IH]; intros s H; simpl; [exact H |].
  apply IH. destruct op; simpl; [reflexivity | exact H].
Qed.

Lemma applyOps_value (T : Type) (ops : list SensitiveOp) (s : entities.Sensitive T) :
  entities.value (applyOps ops s) = entities.value s.
Proof.
  revert s. induction ops as [| op ops IH]; intros s; simpl; [reflexivity |].
  rewrite IH. destruct op; reflexivity.
Qed.

Lemma applyOps_allow (T : Type) (ops : list SensitiveOp) (s : entities.Sensitive T) :
  entities.allow (applyOps ops s) = entities.allow s || existsb isAllow ops.
Proof.
  revert s. induction ops as [| op ops IH]; intros s; simpl.
  - now rewrite orb_false_r.
  - rewrite IH. destruct op; simpl; [now rewrite orb_true_r | reflexivity].
Qed.

(** C7: on a wrapper made by [NewSensitive], after any sequence of calls of
    its methods, [MarshalText] gives "***" when [Allow] is not among the
    calls made so far and the text of the wrapped value when it is; a
    wrapper that allows stays so under every further call. *)
Theorem C7_Sensitive_MarshalText :
  forall (T : Type) (F : fmt.Formatter T) (v : T) (ops : list SensitiveOp),
    entities.Sensitive_MarshalText (entities.NewSensitive v) = ("***", None)
    /\ entities.Sensitive_MarshalText (entities.Sensitive_Allow (entities.NewSensitive v))
       = (fmt.Sprint v, None)
    /\ entities.Sensitive_MarshalText (applyOps ops (entities.NewSensitive v))
       = (if existsb isAllow ops then (fmt.Sprint v, None) else ("***", None))
    /\ (forall (s : entities.Sensitive T) (more : list SensitiveOp),
          entities.Sensitive_MarshalText (applyOps more (entities.Sensitive_Allow s))
          = (fmt.Sprint (entities.value s), None)).
Proof.
  intros T F v ops. repeat split.
  - unfold entities.Sensitive_MarshalText.
    rewrite applyOps_allow, applyOps_value. simpl.
    destruct (existsb isAllow ops); reflexivity.
  - intros s more. unfold entities.Sensitive_MarshalText.
    rewrite applyOps_allow_stays by reflexivity.
    rewrite applyOps_value. reflexivity.
Qed.


(** ** strconv.Atoi *)

Lemma isDigit_spec (c : byte) : isDigit c = true <-> 48 <= b2z c <= 57.
Proof. unfold isDigit. rewrite andb_true_iff, !Z.leb_le. tauto. Qed.

Lemma atoi_digit_test (c : byte) :
  (9 <? (b2z c - 48) mod 256) = negb (isDigit c)
  /\ (isDigit c = true -> (b2z c - 48) mod 256 = b2z c - 48).
Proof.
  pose proof (b2z_range c) as Hr.
  destruct (isDigit c) eqn:Hd.
  - apply isDigit_spec in Hd.
    rewrite Z.mod_small by lia. split; [| reflexivity].
    simpl. apply Z.ltb_ge. lia.
  - split; [| discriminate]. simpl. apply Z.ltb_lt.
    assert (Hnd : ~ 48 <= b2z c <= 57) by (rewrite <- isDigit_spec; congruence).
    destruct (Z_lt_le_dec (b2z c) 48).
    + replace ((b2z c - 48) mod 256) with (b2z c - 48 + 256); [lia |].
      apply Z.mod_unique with (q := -1); lia.
    + rewrite Z.mod_small by lia. lia.
Qed.

(** The loop of the fast path reads a run of digits and nothing else. *)
Lemma atoiLoop_spec (s : string) :
  forall n, strconv.atoiLoop s n = if allDigits s then Some (decimalAcc s n) else None.
Proof.
  induction s as [| c r IH]; intro n; simpl; [reflexivity |].
  destruct (atoi_digit_test c) as [Htest Hval]. rewrite Htest.
  destruct (isDigit c); simpl; [| reflexivity].
  rewrite IH, Hval by reflexivity. reflexivity.
Qed.

Lemma decimalAcc_bounds (s : string) :
  allDigits s = true ->
  forall n, 0 <= n ->
    n * 10 ^ len s <= decimalAcc s n < (n + 1) * 10 ^ len s.
Proof.
  induction s as [| c r IH]; intros Hs n Hn.
  - unfold len. simpl. lia.
  - simpl in Hs. apply andb_prop in Hs as [Hc Hr].
    apply isDigit_spec in Hc.
    assert (Hlen : len (String c r) = len r + 1)
      by (unfold len; simpl String.length; lia).
    assert (Hlr : 0 <= len r) by (unfold len; lia).
    rewrite Hlen, Z.pow_add_r by lia. simpl decimalAcc.
    specialize (IH Hr (n * 10 + (b2z c - 48)) ltac:(lia)).
    assert (Hp : 0 < 10 ^ len r) by (apply Z.pow_pos_nonneg; lia).
    nia.
Qed.

Lemma decimalAcc_ge (s : string) (n : Z) :
  allDigits s = true -> 0 <= n -> n <= decimalAcc s n.
Proof.
  intros Hs Hn. pose proof (decimalAcc_bounds s Hs n Hn) as [H _].
  assert (Hlr : 0 <= len s) by (unfold len; lia).
  assert (Hp : 0 < 10 ^ len s) by (apply Z.pow_pos_nonneg; lia).
  nia.
Qed.

(** The digit loop of [ParseUint]: on a run of digits, their value, or
    a range error with the largest value when it does not fit 64 bits;
    on anything else, a syntax or a range error. *)
Lemma parseUintLoop_spec (s0 s : string) :
  forall n, 0 <= n <= strconv.maxUint64 ->
    (allDigits s = true ->
       strconv.parseUintLoop s0 s n
       = if decimalAcc s n <=? strconv.maxUint64 then (decimalAcc s n, None)
         else (strconv.maxUint64, Some (strconv.rangeError "ParseUint" s0)))
    /\ (allDigits s = false ->
          strconv.parseUintLoop s0 s n = (0, Some (strconv.syntaxError "ParseUint" s0))
          \/ strconv.parseUintLoop s0 s n
             = (strconv.maxUint64, Some (strconv.rangeError "ParseUint" s0))).
Proof.
  induction s as [| c r IH]; intros n Hn.
  - split; [| discriminate]. intros _. simpl.
    destruct (Z.leb_spec n strconv.maxUint64); [reflexivity | lia].
  - pose proof (b2z_range c) as Hc.
    unfold strconv.maxUint64 in *.
    change (2 ^ 64 - 1) with 18446744073709551615 in *.
    simpl allDigits. simpl decimalAcc.
    cbn [strconv.parseUintLoop].
    change (2 ^ strconv.IntSize - 1) with 18446744073709551615.
    change (strconv.maxUint64 / 10 + 1) with 1844674407370955162.
    change (2 ^ 64) with 18446744073709551616.
    destruct (isDigit c) eqn:Hd.
    + apply isDigit_spec in Hd.
      assert (H1 : (48 <=? b2z c) && (b2z c <=? 57) = true)
        by (apply andb_true_iff; rewrite !Z.leb_le; lia).
      rewrite H1.
      destruct (Z.leb_spec 10 (b2z c - 48)); [lia |].
      destruct (Z.leb_spec 1844674407370955162 n) as [Hcut | Hcut].
      * (* n * 10 already overflows *)
        split; [| intros _; now right].
        intro Hr. simpl in Hr.
        pose proof (decimalAcc_ge r (n * 10 + (b2z c - 48)) Hr ltac:(lia)).
        destruct (Z.leb_spec (decimalAcc r (n * 10 + (b2z c - 48))) 18446744073709551615);
          [lia | reflexivity].
      * destruct (Z_lt_le_dec (n * 10 + (b2z c - 48)) 18446744073709551616) as [Hfit | Hover].
        -- rewrite Z.mod_small by lia.
           destruct (Z.ltb_spec (n * 10 + (b2z c - 48)) (n * 10)); [lia |].
           destruct (Z.ltb_spec 18446744073709551615 (n * 10 + (b2z c - 48))); [lia |].
           simpl orb. cbv iota.
           apply (IH (n * 10 + (b2z c - 48))). lia.
        -- assert (Hm : (n * 10 + (b2z c - 48)) mod 18446744073709551616
                        = n * 10 + (b2z c - 48) - 18446744073709551616).
           { symmetry. apply Z.mod_unique with (q := 1); lia. }
           rewrite Hm.
           destruct (Z.ltb_spec (n * 10 + (b2z c - 48) - 18446744073709551616) (n * 10));
             [| lia].
           simpl orb. cbv iota.
           split; [| intros _; now right].
           intro Hr. simpl in Hr.
           pose proof (decimalAcc_ge r (n * 10 + (b2z c - 48)) Hr ltac:(lia)).
           destruct (Z.leb_spec (decimalAcc r (n * 10 + (b2z c - 48))) 18446744073709551615);
             [lia | reflexivity].
    + split; [discriminate |]. intros _.
      assert (Hnd : ~ 48 <= b2z c <= 57) by (rewrite <- isDigit_spec; congruence).
      assert (H1 : (48 <=? b2z c) && (b2z c <=? 57) = false).
      { apply andb_false_iff. rewrite !Z.leb_gt. lia. }
      rewrite H1.
      destruct ((97 <=? strconv.lower c) && (strconv.lower c <=? 122)) eqn:Hl.
      * apply andb_prop in Hl as [Hl1 Hl2]. apply Z.leb_le in Hl1.
        destruct (Z.leb_spec 10 (strconv.lower c - 97 + 10)); [now left | lia].
      * now left.
Qed.

(** Closes a goal that asks for an error value of [strconv]. *)
Ltac atoi_error :=
  unfold strconv.syntaxError, strconv.rangeError; simpl; now eauto.

Lemma ParseUint_spec (s : string) :
  (digitRun s = true ->
     strconv.ParseUint s
     = if decimal s <=? strconv.maxUint64 then (decimal s, None)
       else (strconv.maxUint64, Some (strconv.rangeError "ParseUint" s)))
  /\ (digitRun s = false ->
        strconv.ParseUint s = (0, Some (strconv.syntaxError "ParseUint" s))
        \/ strconv.ParseUint s
           = (strconv.maxUint64, Some (strconv.rangeError "ParseUint" s))).
Proof.
  destruct s as [| c r].
  - split; [discriminate | intros _; now left].
  - unfold strconv.ParseUint, digitRun, decimal.
    apply parseUintLoop_spec. unfold strconv.maxUint64. lia.
Qed.

Lemma decimal_nonneg (s : string) : allDigits s = true -> 0 <= decimal s.
Proof. intro H. apply decimalAcc_ge; [exact H | lia]. Qed.

Lemma digitRun_allDigits (s : string) : digitRun s = true -> allDigits s = true.
Proof. destruct s; [discriminate | auto]. Qed.

Lemma ParseInt_unfold (c : byte) (r : string) :
  strconv.ParseInt (String c r)
  = strconv.parseIntFinish (b2z c =? 45) (String c r)
      (strconv.ParseUint (if (b2z c =? 43) || (b2z c =? 45) then r else String c r)).
Proof. reflexivity. Qed.

(** The result of [strconv.parseIntFinish] on the digits [s] of the literal. *)
Lemma parseIntFinish_spec (neg : bool) (s0 s : string) :
  (digitRun s = true ->
     let n := if neg then - decimal s else decimal s in
     (inInt n -> strconv.parseIntFinish neg s0 (strconv.ParseUint s) = (n, None))
     /\ (~ inInt n ->
         exists v, strconv.parseIntFinish neg s0 (strconv.ParseUint s)
                   = (v, Some (strconv.rangeError "ParseInt" s0))))
  /\ (digitRun s = false ->
      exists v k, strconv.parseIntFinish neg s0 (strconv.ParseUint s)
                  = (v, Some (NumError "ParseInt" s0 k))).
Proof.
  destruct (ParseUint_spec s) as [Hdig Hbad]. split.
  - intro Hs. rewrite (Hdig Hs).
    pose proof (decimal_nonneg s (digitRun_allDigits s Hs)) as Hnn.
    unfold inInt, strconv.parseIntFinish, strconv.maxUint64, strconv.IntSize.
    change (2 ^ (64 - 1)) with 9223372036854775808.
    change (2 ^ 64 - 1) with 18446744073709551615.
    change (2 ^ 63) with 9223372036854775808.
    cbv zeta.
    destruct (Z.leb_spec (decimal s) 18446744073709551615) as [Hfit | Hover].
    + destruct neg; simpl negb; simpl andb.
      * destruct (Z.ltb_spec 9223372036854775808 (decimal s)) as [Hc | Hc];
          split; intro H; try lia; eauto.
      * destruct (Z.leb_spec 9223372036854775808 (decimal s)) as [Hc | Hc];
          split; intro H; try lia; eauto.
    + unfold strconv.rangeError at 1. unfold strconv.ErrRange.
      simpl strconv.isErrRange. cbv iota.
      destruct neg; simpl; split; intro H; try lia; eauto.
  - intro Hs. unfold strconv.parseIntFinish.
    destruct (Hbad Hs) as [-> | ->].
    + simpl. eauto.
    + unfold strconv.rangeError at 1. unfold strconv.ErrRange.
      simpl strconv.isErrRange. cbv iota.
      destruct neg; simpl; unfold strconv.rangeError; eauto.
Qed.

Lemma ParseInt_spec (s : string) :
  match intLiteral s with
  | Some n =>
      (inInt n -> strconv.ParseInt s = (n, None))
      /\ (~ inInt n ->
          exists v, strconv.ParseInt s = (v, Some (strconv.rangeError "ParseInt" s)))
  | None => exists v k, strconv.ParseInt s = (v, Some (NumError "ParseInt" s k))
  end.
Proof.
  destruct s as [| c r]; [simpl; unfold strconv.syntaxError; now eauto |].
  rewrite ParseInt_unfold. unfold intLiteral.
  destruct (Z.eqb_spec (b2z c) 43) as [Hplus | Hplus].
  - destruct (Z.eqb_spec (b2z c) 45) as [? | _]; [lia |]. simpl orb. cbv iota.
    destruct (parseIntFinish_spec false (String c r) r) as [Hd Hb].
    destruct (digitRun r); [apply Hd | apply Hb]; reflexivity.
  - simpl orb.
    destruct (Z.eqb_spec (b2z c) 45) as [Hminus | Hminus].
    + destruct (parseIntFinish_spec true (String c r) r) as [Hd Hb].
      destruct (digitRun r); [apply Hd | apply Hb]; reflexivity.
    + destruct (parseIntFinish_spec false (String c r) (String c r)) as [Hd Hb].
      change (digitRun (String c r)) with (allDigits (String c r)) in *.
      destruct (allDigits (String c r)); [apply Hd | apply Hb]; reflexivity.
Qed.

Lemma len_cons (c : byte) (r : string) : len (String c r) = len r + 1.
Proof. unfold len. simpl String.length. lia. Qed.

Lemma len_nonneg (s : string) : 0 <= len s.
Proof. unfold len. lia. Qed.

(** A literal of fewer than 19 bytes is in the range of [int]. *)
Lemma short_literal_inInt (s : string) (n : Z) :
  len s < 19 -> intLiteral s = Some n -> inInt n.
Proof.
  destruct s as [| c r]; [discriminate |].
  rewrite len_cons. intros Hlen. unfold intLiteral.
  assert (Hpow : forall t, allDigits t = true -> len t <= 18 ->
                           0 <= decimal t < 10 ^ 18).
  { intros t Ht Hl. pose proof (decimalAcc_bounds t Ht 0 ltac:(lia)) as [_ Hb].
    pose proof (decimal_nonneg t Ht). unfold decimal in *.
    assert (10 ^ len t <= 10 ^ 18) by (apply Z.pow_le_mono_r; lia).
    lia. }
  pose proof (len_nonneg r).
  unfold inInt. change (2 ^ 63) with 9223372036854775808.
  change (10 ^ 18) with 1000000000000000000 in Hpow.
  destruct (b2z c =? 43); [| destruct (b2z c =? 45)].
  - destruct (digitRun r) eqn:Hr; [| discriminate].
    intro Hv. injection Hv as <-.
    pose proof (Hpow r (digitRun_allDigits r Hr) ltac:(lia)). lia.
  - destruct (digitRun r) eqn:Hr; [| discriminate].
    intro Hv. injection Hv as <-.
    pose proof (Hpow r (digitRun_allDigits r Hr) ltac:(lia)). lia.
  - destruct (allDigits (String c r)) eqn:Hr; [| discriminate].
    intro Hv. injection Hv as <-.
    pose proof (Hpow (String c r) Hr ltac:(rewrite len_cons; lia)). lia.
Qed.

(** [strconv.Atoi], said without its loops: the value of an integer
    literal that is in the range of [int]; a range error on a literal
    outside it; an error under the name of [Atoi] on any other string. *)
Lemma Atoi_spec (s : string) :
  match intLiteral s with
  | Some n =>
      (inInt n -> strconv.Atoi s = (n, None))
      /\ (~ inInt n ->
          exists v, strconv.Atoi s = (v, Some (strconv.rangeError "Atoi" s)))
  | None => exists v k, strconv.Atoi s = (v, Some (NumError "Atoi" s k))
  end.
Proof.
  unfold strconv.Atoi.
  destruct ((0 <? len s) && (len s <? 19)) eqn:Hfast.
  - apply andb_prop in Hfast as [Hpos Hlt].
    apply Z.ltb_lt in Hpos. apply Z.ltb_lt in Hlt.
    pose proof (short_literal_inInt s) as Hin.
    destruct s as [| c r]; [unfold len in Hpos; simpl in Hpos; lia |].
    specialize (fun n => Hin n Hlt).
    unfold intLiteral in *.
    rewrite atoiLoop_spec.
    assert (Hl1 : forall d r', (len (String d r') <? 1) = false)
      by (intros; apply Z.ltb_ge; rewrite len_cons; pose proof (len_nonneg r'); lia).
    destruct (Z.eqb_spec (b2z c) 43) as [Hplus | Hplus].
    + destruct (Z.eqb_spec (b2z c) 45) as [? | _]; [lia |].
      rewrite orb_true_r. simpl andb.
      destruct r as [| d r']; [atoi_error |].
      rewrite Hl1. change (digitRun (String d r')) with (allDigits (String d r')) in *.
      destruct (allDigits (String d r')); [| atoi_error].
      split; [reflexivity |]. intro H. exfalso. apply H, Hin. reflexivity.
    + destruct (Z.eqb_spec (b2z c) 45) as [Hminus | Hminus].
      * simpl orb. simpl andb.
        destruct r as [| d r']; [atoi_error |].
        rewrite Hl1. change (digitRun (String d r')) with (allDigits (String d r')) in *.
        destruct (allDigits (String d r')); [| atoi_error].
        split; [reflexivity |]. intro H. exfalso. apply H, Hin. reflexivity.
      * simpl orb. simpl andb. cbv iota.
        destruct (allDigits (String c r)); [| atoi_error].
        split; [reflexivity |]. intro H. exfalso. apply H, Hin. reflexivity.
  - pose proof (ParseInt_spec s) as Hp.
    destruct (intLiteral s) as [n |].
    + destruct Hp as [Hok Hrange]. split.
      * intro Hn. now rewrite (Hok Hn).
      * intro Hn. destruct (Hrange Hn) as [v ->]. atoi_error.
    + destruct Hp as (v & k & ->). atoi_error.
Qed.

(** [Atoi] succeeds exactly on the integer literals in the range of
    [int], with their value. *)
Lemma Atoi_ok_iff (s : string) (n : Z) :
  strconv.Atoi s = (n, None) <-> intLiteral s = Some n /\ inInt n.
Proof.
  pose proof (Atoi_spec s) as H.
  destruct (intLiteral s) as [m |].
  - destruct H as [Hok Hrange]. split.
    + intro Ha.
      assert (Hm : inInt m).
      { unfold inInt. destruct (Z_le_dec (- 2 ^ 63) m); destruct (Z_le_dec m (2 ^ 63 - 1));
          try (split; assumption);
          (destruct Hrange as [v Hv]; [unfold inInt; lia | congruence]). }
      rewrite (Hok Hm) in Ha. injection Ha as <-. auto.
    + intros [Heq Hn]. injection Heq as ->. auto.
  - destruct H as (v & k & Hv). split.
    + congruence.
    + intros [? _]. discriminate.
Qed.

(** Every error of [Atoi] is a [*NumError] that names [Atoi] and the
    argument. *)
Lemma Atoi_error_shape (s : string) (v : Z) (e : error) :
  strconv.Atoi s = (v, Some e) -> exists k, e = NumError "Atoi" s k.
Proof.
  pose proof (Atoi_spec s) as H. intro Ha.
  destruct (intLiteral s) as [m |].
  - destruct H as [Hok Hrange].
    assert (Hm : ~ inInt m) by (intro Hm; rewrite (Hok Hm) in Ha; discriminate).
    destruct (Hrange Hm) as [v' Hv']. rewrite Hv' in Ha. injection Ha as _ <-.
    unfold strconv.rangeError. eauto.
  - destruct H as (v' & k & Hv'). rewrite Hv' in Ha. injection Ha as _ <-. eauto.
Qed.

(** ** strconv.Itoa *)

Lemma string_of_uint_allDigits (d : Decimal.uint) :
  allDigits (NilEmpty.string_of_uint d) = true.
Proof. induction d; simpl; auto. Qed.

Lemma string_of_uint_acc (d : Decimal.uint) :
  forall acc : positive,
    decimalAcc (NilEmpty.string_of_uint d) (Z.pos acc) = Z.pos (Pos.of_uint_acc d acc).
Proof.
  induction d; intro acc; cbn [NilEmpty.string_of_uint decimalAcc Pos.of_uint_acc];
    try reflexivity;
    rewrite <- IHd; f_equal;
    match goal with
    | |- context [b2z ?c] =>
        let v := eval vm_compute in (b2z c) in change (b2z c) with v
    end; lia.
Qed.

Lemma string_of_uint_decimal (d : Decimal.uint) :
  decimal (NilEmpty.string_of_uint d) = Z.of_N (Pos.of_uint d).
Proof.
  unfold decimal.
  induction d; cbn [NilEmpty.string_of_uint decimalAcc Pos.of_uint Z.of_N];
    try reflexivity; try exact IHd;
    rewrite <- string_of_uint_acc; reflexivity.
Qed.

(** A non-empty run of digits is the literal of its value. *)
Lemma intLiteral_digits (s : string) :
  digitRun s = true -> intLiteral s = Some (decimal s).
Proof.
  destruct s as [| c r]; [discriminate |].
  unfold digitRun, intLiteral. intro Hs. rewrite Hs.
  simpl in Hs. apply andb_prop in Hs as [Hc _]. apply isDigit_spec in Hc.
  destruct (Z.eqb_spec (b2z c) 43); [lia |].
  destruct (Z.eqb_spec (b2z c) 45); [lia |]. reflexivity.
Qed.

Lemma to_uint_digitRun (p : positive) :
  digitRun (NilEmpty.string_of_uint (Pos.to_uint p)) = true
  /\ NilZero.string_of_uint (Pos.to_uint p) = NilEmpty.string_of_uint (Pos.to_uint p).
Proof.
  pose proof (Unsigned.to_uint_nonnil p) as Hnil.
  pose proof (string_of_uint_allDigits (Pos.to_uint p)) as Hd.
  destruct (Pos.to_uint p); [congruence | ..]; split; try reflexivity; exact Hd.
Qed.

(** The text of [Itoa] is the integer literal of its argument. *)
Lemma Itoa_literal (n : Z) : intLiteral (strconv.Itoa n) = Some n.
Proof.
  unfold strconv.Itoa. destruct n as [| p | p]; [reflexivity | ..];
    destruct (to_uint_digitRun p) as [Hrun Heq];
    cbn [Z.to_int NilZero.string_of_int]; rewrite Heq.
  - rewrite (intLiteral_digits _ Hrun), string_of_uint_decimal, Unsigned.of_to.
    reflexivity.
  - unfold intLiteral. change (b2z "-"%char) with 45. cbn [Z.eqb Pos.eqb].
    rewrite Hrun, string_of_uint_decimal, Unsigned.of_to. reflexivity.
Qed.

(** [Atoi] reads back what [Itoa] writes. *)
Lemma Atoi_Itoa (n : Z) : inInt n -> strconv.Atoi (strconv.Itoa n) = (n, None).
Proof.
  intro Hn. apply Atoi_ok_iff. split; [apply Itoa_literal | exact Hn].
Qed.

(** ** RequestError *)

(** C9: the text of a request error is "unexpected code <code>" when its
    message is empty and "unexpected code <code>: <message>" otherwise,
    where <code> is the decimal literal of the code. *)
Theorem C9_RequestError_Error :
  forall (err : RequestError),
    (msg err = EmptyString ->
       RequestError_Error err = "unexpected code " ++ strconv.Itoa (code err))
    /\ (msg err <> EmptyString ->
       RequestError_Error err
       = "unexpected code " ++ strconv.Itoa (code err) ++ ": " ++ msg err)
    /\ intLiteral (strconv.Itoa (code err)) = Some (code err)
    /\ RequestError_Error {| code := 404; msg := EmptyString |} = "unexpected code 404"
    /\ RequestError_Error {| code := 100; msg := "no access" |}
       = "unexpected code 100: no access"
    /\ RequestError_Error {| code := -1; msg := EmptyString |} = "unexpected code -1".
Proof.
  intros [c m]. simpl. split; [| split; [| split]].
  - intros ->. reflexivity.
  - intro H. unfold RequestError_Error. simpl.
    rewrite (eqb_false_of_neq H). reflexivity.
  - apply Itoa_literal.
  - repeat split.
Qed.

Lemma C9_witness_with_and_without_message :
  RequestError_Error {| code := 500; msg := EmptyString |}
  = "unexpected code " ++ strconv.Itoa 500
  /\ RequestError_Error {| code := 100; msg := "Error key" |}
     = "unexpected code " ++ strconv.Itoa 100 ++ ": " ++ "Error key".
Proof.
  split.
  - apply (proj1 (C9_RequestError_Error {| code := 500; msg := EmptyString |})). reflexivity.
  - apply (proj1 (proj2 (C9_RequestError_Error {| code := 100; msg := "Error key" |}))).
    discriminate.
Defined.

(** ** Mapping one record *)

(** The three ways through [mapProxyToEntity]. *)
Lemma mapProxyToEntity_cases (L : GoLib) (p : client.proxy) :
  (exists n e, strconv.Atoi (client.Port p) = (n, Some e)
     /\ client.mapProxyToEntity p
        = (entities.Proxy_zero, Some (fmt.Errorf_w "parsing port: " e)))
  \/ (exists n t e, strconv.Atoi (client.Port p) = (n, None)
     /\ entities.ParseProxyType (client.Type_ p) = (t, Some e)
     /\ client.Type_ p <> "http" /\ client.Type_ p <> "socks"
     /\ client.mapProxyToEntity p
        = (entities.Proxy_zero, Some (fmt.Errorf_w "parsing proxy type: " e)))
  \/ (exists n t, strconv.Atoi (client.Port p) = (n, None)
     /\ entities.ParseProxyType (client.Type_ p) = (t, None)
     /\ ((client.Type_ p = "http" /\ t = entities.ProxyTypeHTTP)
         \/ (client.Type_ p = "socks" /\ t = entities.ProxyTypeSocks))
     /\ client.mapProxyToEntity p
        = ({| entities.ID := client.ID p;
              entities.Host := client.Host p;
              entities.Port := n mod 2 ^ 16;
              entities.User := client.User p;
              entities.Password := entities.NewSensitive (client.Pass p);
              entities.Type_ := t;
              entities.Country := client.Country p;
              entities.Date := time.Unix (client.Unixtime p) 0;
              entities.ExpireDate := time.Unix (client.UnixtimeEnd p) 0;
              entities.Description := client.Descr p;
              entities.Active := strings.EqualFold (client.Active p) "1" |}, None)).
Proof.
  unfold client.mapProxyToEntity.
  destruct (strconv.Atoi (client.Port p)) as [n [e |]] eqn:Hport.
  - left. now exists n, e.
  - right. unfold entities.ParseProxyType.
    destruct (String.eqb_spec (client.Type_ p) "http") as [Hh | Hh].
    + right. exists n, entities.ProxyTypeHTTP. repeat split; auto.
    + destruct (String.eqb_spec (client.Type_ p) "socks") as [Hs | Hs].
      * right. exists n, entities.ProxyTypeSocks. repeat split; auto.
      * left. exists n, entities.ProxyTypeUnknown. eexists. repeat split; auto.
Qed.

(** C1 (as the code has it): mapping a record fails exactly when its
    port string is not an integer literal (an optional sign and one or
    more decimal digits) in the range of [int], or its type string is
    neither "http" nor "socks"; a failed mapping returns the zero [Proxy].
    The value of a port that parses is not looked at. *)
Theorem C1_mapProxyToEntity_fails_iff :
  forall (L : GoLib) (p : client.proxy),
    (snd (client.mapProxyToEntity p) <> None
     <-> ~ ((exists n, intLiteral (client.Port p) = Some n /\ inInt n)
            /\ (client.Type_ p = "http" \/ client.Type_ p = "socks")))
    /\ (snd (client.mapProxyToEntity p) <> None ->
        fst (client.mapProxyToEntity p) = entities.Proxy_zero).
Proof.
  intros L p.
  destruct (mapProxyToEntity_cases L p)
    as [(n & e & Hp & Hm) | [(n & t & e & Hp & Ht & Hh & Hs & Hm) | (n & t & Hp & Ht & Hty & Hm)]];
    rewrite Hm; simpl.
  - split; [| reflexivity]. split; [| discriminate].
    intros _ [[m Hlit] _]. apply Atoi_ok_iff in Hlit. congruence.
  - split; [| reflexivity]. split; [| discriminate].
    intros _ [_ [H | H]]; contradiction.
  - split; [| intro H; now contradict H]. split.
    + intro H. now contradict H.
    + intro H. exfalso. apply H. split.
      * exists n. now apply Atoi_ok_iff.
      * destruct Hty as [[? _] | [? _]]; auto.
Qed.

(** C1 fails as stated: the port strings "70000" and "-1" parse to
    integers outside 0..65535, and the two records map without an error,
    to the ports 4464 and 65535. *)
Lemma C1_counterexample_port_out_of_range :
  strconv.Atoi "70000" = (70000, None)
  /\ ~ (0 <= 70000 <= 65535)
  /\ snd (@client.mapProxyToEntity sampleLib (rawProxy "70000" "http" "1")) = None
  /\ entities.Port (fst (@client.mapProxyToEntity sampleLib (rawProxy "70000" "http" "1"))) = 4464
  /\ strconv.Atoi "-1" = (-1, None)
  /\ ~ (0 <= -1 <= 65535)
  /\ snd (@client.mapProxyToEntity sampleLib (rawProxy "-1" "socks" "1")) = None
  /\ entities.Port (fst (@client.mapProxyToEntity sampleLib (rawProxy "-1" "socks" "1"))) = 65535.
Proof.
  repeat split; try reflexivity; lia.
Qed.

(** C10: when the port string parses to an integer [n], of any sign and
    size, and the type string is "http" or "socks", the mapping succeeds
    and the port of the result is [n] modulo 2^16. *)
Theorem C10_port_reduced_mod_2_16 :
  forall (L : GoLib) (p : client.proxy) (n : Z),
    strconv.Atoi (client.Port p) = (n, None) ->
    client.Type_ p = "http" \/ client.Type_ p = "socks" ->
    exists e,
      client.mapProxyToEntity p = (e, None)
      /\ entities.Port e = n mod 2 ^ 16
      /\ 0 <= entities.Port e < 2 ^ 16.
Proof.
  intros L p n Hn Hty.
  destruct (mapProxyToEntity_cases L p)
    as [(n' & e & Hp & Hm) | [(n' & t & e & Hp & Ht & Hh & Hs & Hm) | (n' & t & Hp & Ht & _ & Hm)]].
  - rewrite Hn in Hp. discriminate.
  - destruct Hty; contradiction.
  - rewrite Hn in Hp. injection Hp as <-.
    eexists. split; [exact Hm |]. simpl. split; [reflexivity |].
    apply Z.mod_pos_bound. lia.
Qed.

Lemma C10_witness_negative_and_large :
  (exists e, @client.mapProxyToEntity sampleLib (rawProxy "-1" "socks" "0") = (e, None)
             /\ entities.Port e = (-1) mod 2 ^ 16
             /\ 0 <= entities.Port e < 2 ^ 16)
  /\ (exists e, @client.mapProxyToEntity sampleLib (rawProxy "70000" "http" "1") = (e, None)
                /\ entities.Port e = 70000 mod 2 ^ 16
                /\ 0 <= entities.Port e < 2 ^ 16)
  /\ (-1) mod 2 ^ 16 = 65535
  /\ 70000 mod 2 ^ 16 = 4464.
Proof.
  split; [| split; [| split; reflexivity]].
  - apply (C10_port_reduced_mod_2_16 sampleLib (rawProxy "-1" "socks" "0") (-1)).
    + reflexivity.
    + right. reflexivity.
  - apply (C10_port_reduced_mod_2_16 sampleLib (rawProxy "70000" "http" "1") 70000).
    + reflexivity.
    + left. reflexivity.
Defined.

Lemma EqualFold_cons (L : GoLib) (sr tr : byte) (s' t' : string) :
  strings.EqualFold (String sr s') (String tr t')
  = if RuneSelf <=? Z.lor (b2z sr) (b2z tr)
    then unicodeEqualFold (String sr s') (String tr t')
    else if b2z tr =? b2z sr then strings.EqualFold s' t'
    else if (65 <=? Z.min (b2z sr) (b2z tr)) && (Z.min (b2z sr) (b2z tr) <=? 90)
            && (Z.max (b2z sr) (b2z tr) =? Z.min (b2z sr) (b2z tr) + 32)
    then strings.EqualFold s' t'
    else false.
Proof. reflexivity. Qed.

Lemma EqualFold_nil_r (L : GoLib) (s : string) :
  strings.EqualFold s EmptyString = true <-> s = EmptyString.
Proof. destruct s; simpl; split; congruence. Qed.

Lemma lor_below_RuneSelf (a b : Z) :
  0 <= a < RuneSelf -> 0 <= b < RuneSelf -> Z.lor a b < RuneSelf.
Proof.
  unfold RuneSelf. intros Ha Hb.
  assert (Hnn : 0 <= Z.lor a b) by (apply Z.lor_nonneg; lia).
  destruct (Z.eq_dec (Z.lor a b) 0) as [-> | Hnz]; [lia |].
  change 128 with (2 ^ 7). apply Z.log2_lt_pow2; [lia |].
  rewrite Z.log2_lor by lia.
  apply Z.max_lub_lt.
  - destruct (Z.eq_dec a 0) as [-> | ?]; [reflexivity |].
    apply Z.log2_lt_pow2; lia.
  - destruct (Z.eq_dec b 0) as [-> | ?]; [reflexivity |].
    apply Z.log2_lt_pow2; lia.
Qed.

(** [EqualFold] against "1" on a string that is empty or starts with an
    ASCII byte: only "1" itself is equal. *)
Lemma EqualFold_1_ascii (L : GoLib) (s : string) :
  startsASCII s = true -> (strings.EqualFold s "1" = true <-> s = "1").
Proof.
  destruct s as [| c r].
  - intros _. simpl. split; discriminate.
  - unfold startsASCII. intro Hc. apply Z.ltb_lt in Hc.
    pose proof (b2z_range c) as Hr.
    rewrite EqualFold_cons.
    change (b2z "1"%char) with 49.
    assert (Hlor : Z.lor (b2z c) 49 < RuneSelf)
      by (apply lor_below_RuneSelf; unfold RuneSelf in *; lia).
    destruct (RuneSelf <=? Z.lor (b2z c) 49) eqn:E;
      [apply Z.leb_le in E; lia |].
    destruct (Z.eqb_spec 49 (b2z c)) as [Heq | Hne].
    + assert (c = "1"%char) by (apply b2z_inj; change (b2z "1"%char) with 49; lia).
      subst c. rewrite EqualFold_nil_r. split; congruence.
    + assert (Hfalse : (65 <=? Z.min (b2z c) 49) && (Z.min (b2z c) 49 <=? 90)
                       && (Z.max (b2z c) 49 =? Z.min (b2z c) 49 + 32) = false).
      { destruct (65 <=? Z.min (b2z c) 49) eqn:E1; [| reflexivity].
        apply Z.leb_le in E1. pose proof (Z.le_min_r (b2z c) 49). lia. }
      rewrite Hfalse. split; [discriminate |].
      intro H. injection H as -> _. now contradict Hne.
Qed.

(** C8: the record with port "8080", type "http", both timestamps 0 and
    active "1" maps, whatever its other fields, to a [Proxy] with port
    8080, type HTTP, both dates at the UNIX epoch and [Active] true; and
    for every record that maps, [Active] is [strings.EqualFold] of its
    active string and "1", which on a string that is empty or starts with
    an ASCII byte holds of "1" alone. *)
Theorem C8_mapProxyToEntity_example_and_active :
  forall (L : GoLib),
    (forall (id host user pass country date dateEnd descr : string),
       client.mapProxyToEntity
         {| client.ID := id; client.Host := host; client.Port := "8080";
            client.User := user; client.Pass := pass; client.Type_ := "http";
            client.Country := country; client.Date := date; client.DateEnd := dateEnd;
            client.Unixtime := 0; client.UnixtimeEnd := 0;
            client.Descr := descr; client.Active := "1" |}
       = ({| entities.ID := id; entities.Host := host; entities.Port := 8080;
             entities.User := user;
             entities.Password := entities.NewSensitive pass;
             entities.Type_ := entities.ProxyTypeHTTP;
             entities.Country := country;
             entities.Date := time.epoch; entities.ExpireDate := time.epoch;
             entities.Description := descr; entities.Active := true |}, None))
    /\ (forall (p : client.proxy) (e : entities.Proxy),
          client.mapProxyToEntity p = (e, None) ->
          entities.Active e = strings.EqualFold (client.Active p) "1"
          /\ (startsASCII (client.Active p) = true ->
              (entities.Active e = true <-> client.Active p = "1"))).
Proof.
  intro L. split.
  - intros. reflexivity.
  - intros p e Hm.
    destruct (mapProxyToEntity_cases L p)
      as [(n & e' & Hp & Hm') | [(n & t & e' & Hp & Ht & Hh & Hs & Hm') | (n & t & Hp & Ht & _ & Hm')]];
      rewrite Hm in Hm'; try discriminate.
    injection Hm' as ->. simpl. split; [reflexivity |].
    apply EqualFold_1_ascii.
Qed.

Lemma C8_witness_active_flag :
  (entities.Active (fst (@client.mapProxyToEntity sampleLib (rawProxy "8080" "http" "1")))
   = @strings.EqualFold sampleLib "1" "1"
   /\ (startsASCII "1" = true ->
       (entities.Active (fst (@client.mapProxyToEntity sampleLib (rawProxy "8080" "http" "1")))
        = true <-> "1" = "1")))
  /\ entities.Active (fst (@client.mapProxyToEntity sampleLib (rawProxy "8080" "http" "yes")))
     = false.
Proof.
  split; [| reflexivity].
  exact (proj2 (C8_mapProxyToEntity_example_and_active sampleLib)
               (rawProxy "8080" "http" "1") _ eq_refl).
Defined.

Lemma C1_witness_bad_port_and_bad_type :
  (snd (@client.mapProxyToEntity sampleLib (rawProxy "abc" "http" "1")) <> None
   /\ fst (@client.mapProxyToEntity sampleLib (rawProxy "abc" "http" "1"))
      = entities.Proxy_zero)
  /\ (snd (@client.mapProxyToEntity sampleLib (rawProxy "8080" "HTTP" "1")) <> None
      /\ fst (@client.mapProxyToEntity sampleLib (rawProxy "8080" "HTTP" "1"))
         = entities.Proxy_zero).
Proof.
  assert (H : forall p, ~ ((exists n, intLiteral (client.Port p) = Some n /\ inInt n)
                           /\ (client.Type_ p = "http" \/ client.Type_ p = "socks")) ->
                        snd (@client.mapProxyToEntity sampleLib p) <> None
                        /\ fst (@client.mapProxyToEntity sampleLib p) = entities.Proxy_zero).
  { intros p Hp.
    destruct (C1_mapProxyToEntity_fails_iff sampleLib p) as [Hiff Hzero].
    split; [apply Hiff, Hp | apply Hzero, Hiff, Hp]. }
  split; apply H; simpl.
  - intros [[n [Hport _]] _]. discriminate.
  - intros [_ [Ht | Ht]]; discriminate.
Defined.

(** ** The request and its outcomes *)

Lemma sentEvents_not_decoded (N : client.Net) (log : Logger) (req : client.Request)
    (resp : client.Response) (took : Z) :
  forallb (fun ev => negb (isDecoded ev)) (sentEvents log req resp took) = true.
Proof.
  unfold sentEvents. rewrite !forallb_app. simpl.
  assert (H : forall rs, forallb (fun ev => negb (isDecoded ev)) (map Logged rs) = true)
    by (induction rs; simpl; auto).
  now rewrite !H.
Qed.

(** [doRequest] once the transport has answered. *)
Lemma doRequest_answered (L : GoLib) (N : client.Net) (c : client.http_Client)
    (req : client.Request) (log : Logger) (dst : client.proxyResponse)
    (tr : list Event) (resp : client.Response) (took : Z) :
  c req = (inl resp, took) ->
  client.doRequest c req log dst tr
  = if client.StatusBadRequest <=? client.StatusCode resp then
      (Return (dst, Some (errRequest {| code := client.StatusCode resp;
                                        msg := client.Body resp |})),
       (tr ++ sentEvents log req resp took)%list)
    else
      (Return (fst (client.Unmarshal (client.Body resp) dst),
               match snd (client.Unmarshal (client.Body resp) dst) with
               | Some err => Some (fmt.Errorf_w "decoding json: " err)
               | None => None
               end),
       (tr ++ sentEvents log req resp took ++ [Decoded (client.Body resp)])%list).
Proof.
  intro Hc. unfold client.doRequest, bind, emitLog, emit, ret, sentEvents.
  rewrite Hc.
  destruct (client.StatusBadRequest <=? client.StatusCode resp).
  - now rewrite <- !app_assoc.
  - destruct (client.Unmarshal (client.Body resp) dst) as [dst' [err |]]; simpl;
      now rewrite <- !app_assoc.
Qed.

(** [loadAllProxies] once the request is built and answered. *)
Lemma loadAllProxies_answered (L : GoLib) (N : client.Net) (c : client.httpClient)
    (ctx : client.Context) (params : client.ListProxyParams) (tr : list Event)
    (req : client.Request) (resp : client.Response) (took : Z) :
  client.NewRequestWithContext ctx "GET" (listURL c) = inl req ->
  client.hclient c (client.setRawQuery req (listQuery params)) = (inl resp, took) ->
  client.loadAllProxies c ctx (client.State params) (client.Descr_ params) tr
  = let r := client.doRequest (client.hclient c)
               (client.setRawQuery req (listQuery params)) (client.logF c ctx)
               client.proxyResponse_zero tr in
    match fst r with
    | Return (response, Some err) => (Return (response, Some err), snd r)
    | Return (response, None) =>
        if client.isError (client.base response)
        then (Return (response,
                      Some (errRequest {| code := client.ErrorID (client.base response);
                                          msg := client.Error (client.base response) |})),
              snd r)
        else (Return (response, None), snd r)
    | Panic reason => (Panic reason, snd r)
    end.
Proof.
  intros Hreq Hdo. unfold client.loadAllProxies, listURL in *. rewrite Hreq.
  unfold bind, listQuery. cbv zeta.
  destruct (client.doRequest _ _ _ _ tr) as [[[response [err |]] | reason] tr']; simpl;
    try reflexivity.
  destruct (client.isError (client.base response)); reflexivity.
Qed.

(** [ListProxies] after [loadAllProxies] returned an envelope. *)
Lemma ListProxies_loaded (L : GoLib) (N : client.Net) (c : client.httpClient)
    (ctx : client.Context) (params : client.ListProxyParams) (tr tr' : list Event)
    (resp : client.proxyResponse) :
  client.loadAllProxies c ctx (client.State params) (client.Descr_ params) tr
  = (Return (resp, None), tr') ->
  client.ListProxies c ctx params tr
  = match client.mapProxyResponse resp with
    | Return (proxies, None) => (Return (proxies, None), tr')
    | Return (_, Some err) => (Return (None, Some err), tr')
    | Panic reason => (Panic reason, tr')
    end.
Proof.
  intro H. unfold client.ListProxies, bind, lift. rewrite H.
  destruct (client.mapProxyResponse resp) as [[proxies [err |]] | reason]; reflexivity.
Qed.

(** [ListProxies] after [loadAllProxies] returned an error. *)
Lemma ListProxies_load_failed (L : GoLib) (N : client.Net) (c : client.httpClient)
    (ctx : client.Context) (params : client.ListProxyParams) (tr tr' : list Event)
    (resp : client.proxyResponse) (err : error) :
  client.loadAllProxies c ctx (client.State params) (client.Descr_ params) tr
  = (Return (resp, Some err), tr') ->
  client.ListProxies c ctx params tr = (Return (None, Some err), tr').
Proof.
  intro H. unfold client.ListProxies, bind. now rewrite H.
Qed.

Lemma maps_true (L : GoLib) (p : client.proxy) :
  maps p = true <-> snd (client.mapProxyToEntity p) = None.
Proof.
  unfold maps. destruct (snd (client.mapProxyToEntity p)); split; congruence.
Qed.

Lemma mapProxyToEntity_failed (L : GoLib) (p : client.proxy) :
  maps p = false ->
  exists err, client.mapProxyToEntity p = (entities.Proxy_zero, Some err).
Proof.
  unfold maps. intro H.
  destruct (mapProxyToEntity_cases L p)
    as [(n & e & _ & Hm) | [(n & t & e & _ & _ & _ & _ & Hm) | (n & t & _ & _ & _ & Hm)]];
    rewrite Hm in *; simpl in H; try discriminate; eauto.
Qed.

(** The loop stops at the first record that does not map, with its error
    and without a list. *)
Lemma mapItems_first_failure (L : GoLib) (items : list client.proxy) :
  forall acc,
    existsb (fun p => negb (maps p)) items = true ->
    exists pre item post err,
      items = (pre ++ item :: post)%list
      /\ forallb maps pre = true
      /\ client.mapProxyToEntity item = (entities.Proxy_zero, Some err)
      /\ client.mapItems items acc = (None, Some err).
Proof.
  induction items as [| x rest IH]; intros acc H; simpl in H; [discriminate |].
  destruct (maps x) eqn:Hx; simpl in H.
  - destruct (IH (acc ++ [fst (client.mapProxyToEntity x)])%list H)
      as (pre & item & post & err & -> & Hpre & Hitem & Hrun).
    exists (x :: pre), item, post, err. repeat split; auto.
    + simpl. now rewrite Hx, Hpre.
    + simpl. apply maps_true in Hx.
      destruct (client.mapProxyToEntity x) as [e o]. simpl in Hx. subst o. exact Hrun.
  - destruct (mapProxyToEntity_failed L x Hx) as [err Herr].
    exists [], x, rest, err. repeat split; auto.
    simpl. now rewrite Herr.
Qed.

(** When every record maps, the loop returns them all, in order. *)
Lemma mapItems_all_map (L : GoLib) (items : list client.proxy) :
  forall acc,
    forallb maps items = true ->
    client.mapItems items acc
    = (Some (acc ++ map (fun p => fst (client.mapProxyToEntity p)) items)%list, None).
Proof.
  induction items as [| x rest IH]; intros acc H; simpl in *.
  - now rewrite app_nil_r.
  - apply andb_prop in H as [Hx Hrest]. apply maps_true in Hx.
    destruct (client.mapProxyToEntity x) as [e o]. simpl in Hx. subst o.
    rewrite IH by exact Hrest. simpl. now rewrite <- app_assoc.
Qed.

(** X20: when [loadAllProxies] returned an envelope without an error,
    the list count of the envelope is a capacity that [make] accepts and
    one of its records does not map, [ListProxies] returns the error of
    the first such record and a nil list: the records before it are not
    returned and the ones after it are not looked at. *)
Theorem X20_ListProxies_aborts_on_first_failure :
  forall (L : GoLib) (N : client.Net) (c : client.httpClient) (ctx : client.Context)
         (params : client.ListProxyParams) (tr tr' : list Event)
         (resp : client.proxyResponse),
    client.loadAllProxies c ctx (client.State params) (client.Descr_ params) tr
    = (Return (resp, None), tr') ->
    0 <= client.ListCount resp <= maxProxyCap ->
    (exists item, In item (client.List resp) /\ snd (client.mapProxyToEntity item) <> None) ->
    exists pre item post err,
      client.List resp = (pre ++ item :: post)%list
      /\ forallb maps pre = true
      /\ client.mapProxyToEntity item = (entities.Proxy_zero, Some err)
      /\ client.ListProxies c ctx params tr = (Return (None, Some err), tr').
Proof.
  intros L N c ctx params tr tr' resp Hload Hcap (bad & Hin & Hbad).
  assert (Hex : existsb (fun p => negb (maps p)) (client.List resp) = true).
  { apply existsb_exists. exists bad. split; [exact Hin |].
    unfold maps. destruct (snd (client.mapProxyToEntity bad)); [reflexivity | congruence]. }
  destruct (mapItems_first_failure L (client.List resp) [] Hex)
    as (pre & item & post & err & Hsplit & Hpre & Hitem & Hrun).
  exists pre, item, post, err. repeat split; auto.
  rewrite (ListProxies_loaded L N c ctx params tr tr' resp Hload).
  unfold client.mapProxyResponse, client.make_ok.
  destruct (Z.leb_spec 0 (client.ListCount resp)); [| lia].
  destruct (Z.leb_spec (client.ListCount resp) maxProxyCap); [| lia].
  simpl. now rewrite Hrun.
Qed.

Lemma X20_witness_second_record_bad :
  exists tr' pre item post err,
    client.List (okEnvelope 2 [rawProxy "80" "http" "1"; rawProxy "abc" "http" "1"])
    = (pre ++ item :: post)%list
    /\ forallb (@maps sampleLib) pre = true
    /\ @client.mapProxyToEntity sampleLib item = (entities.Proxy_zero, Some err)
    /\ @client.ListProxies sampleLib _
         (sampleClient
            (decodeTo (okEnvelope 2 [rawProxy "80" "http" "1"; rawProxy "abc" "http" "1"]))
            200 "{}")
         tt activeParams []
       = (Return (None, Some err), tr').
Proof.
  eexists.
  eapply (X20_ListProxies_aborts_on_first_failure sampleLib
            (sampleNet (decodeTo (okEnvelope 2 [rawProxy "80" "http" "1";
                                                 rawProxy "abc" "http" "1"])))
            (sampleClient _ 200 "{}") tt activeParams []).
  - vm_compute. reflexivity.
  - vm_compute. split; discriminate.
  - exists (rawProxy "abc" "http" "1"). split.
    + simpl. auto.
    + vm_compute. discriminate.
Defined.

(** C2 (the defect): whenever [loadAllProxies] returned an envelope
    without an error and the list count of the envelope is negative,
    [ListProxies] panics in [make], whatever the records are: a record
    that does not map is not reported with its error. *)
Theorem C2_negative_list_count_panics :
  forall (L : GoLib) (N : client.Net) (c : client.httpClient) (ctx : client.Context)
         (params : client.ListProxyParams) (tr tr' : list Event)
         (resp : client.proxyResponse),
    client.loadAllProxies c ctx (client.State params) (client.Descr_ params) tr
    = (Return (resp, None), tr') ->
    client.ListCount resp < 0 ->
    client.ListProxies c ctx params tr
    = (Panic "runtime error: makeslice: cap out of range", tr').
Proof.
  intros L N c ctx params tr tr' resp Hload Hneg.
  rewrite (ListProxies_loaded L N c ctx params tr tr' resp Hload).
  unfold client.mapProxyResponse, client.make_ok.
  destruct (Z.leb_spec 0 (client.ListCount resp)); [lia | reflexivity].
Qed.

Lemma C2_witness_negative_count_bad_port :
  exists tr',
    snd (@client.mapProxyToEntity sampleLib (rawProxy "abc" "http" "1")) <> None
    /\ @client.ListProxies sampleLib _
         (sampleClient (decodeTo (okEnvelope (-1) [rawProxy "abc" "http" "1"])) 200 "{}")
         tt activeParams []
       = (Panic "runtime error: makeslice: cap out of range", tr').
Proof.
  eexists. split; [vm_compute; discriminate |].
  eapply (C2_negative_list_count_panics sampleLib
            (sampleNet (decodeTo (okEnvelope (-1) [rawProxy "abc" "http" "1"])))
            (sampleClient _ 200 "{}") tt activeParams []).
  - vm_compute. reflexivity.
  - simpl. lia.
Defined.

Lemma GetCode_wrapped (L : GoLib) (prefix : string) (err : error) :
  client.GetCode (Some (fmt.Errorf_w prefix err)) = client.GetCode (Some err).
Proof. reflexivity. Qed.

(** C3: when the response has a status below 400 and decodes to an
    envelope whose status is "no", or whose error_id is positive, or whose
    error string is not empty, [loadAllProxies] and [ListProxies] fail
    with the request error made of the envelope's error_id and error
    string, and [GetCode] of that error, also when it is wrapped by the
    caller, is the error_id. *)
Theorem C3_envelope_error_is_request_error :
  forall (L : GoLib) (N : client.Net) (c : client.httpClient) (ctx : client.Context)
         (params : client.ListProxyParams) (tr : list Event)
         (req : client.Request) (resp : client.Response) (took : Z)
         (env : client.proxyResponse),
    client.NewRequestWithContext ctx "GET" (listURL c) = inl req ->
    client.hclient c (client.setRawQuery req (listQuery params)) = (inl resp, took) ->
    client.StatusCode resp < 400 ->
    client.Unmarshal (client.Body resp) client.proxyResponse_zero = (env, None) ->
    client.Status (client.base env) = "no"
      \/ 0 < client.ErrorID (client.base env)
      \/ client.Error (client.base env) <> EmptyString ->
    exists tr',
      client.loadAllProxies c ctx (client.State params) (client.Descr_ params) tr
      = (Return (env, Some (errRequest {| code := client.ErrorID (client.base env);
                                          msg := client.Error (client.base env) |})), tr')
      /\ client.ListProxies c ctx params tr
         = (Return (None, Some (errRequest {| code := client.ErrorID (client.base env);
                                              msg := client.Error (client.base env) |})), tr')
      /\ client.GetCode (Some (errRequest {| code := client.ErrorID (client.base env);
                                             msg := client.Error (client.base env) |}))
         = client.ErrorID (client.base env)
      /\ client.GetMessage (Some (errRequest {| code := client.ErrorID (client.base env);
                                                msg := client.Error (client.base env) |}))
         = client.Error (client.base env)
      /\ (forall prefix,
            client.GetCode
              (Some (fmt.Errorf_w prefix
                       (errRequest {| code := client.ErrorID (client.base env);
                                      msg := client.Error (client.base env) |})))
            = client.ErrorID (client.base env)).
Proof.
  intros L N c ctx params tr req resp took env Hreq Hdo Hcode Hdec Herr.
  assert (His : client.isError (client.base env) = true).
  { unfold client.isError. destruct Herr as [-> | [H | H]].
    - reflexivity.
    - apply Z.ltb_lt in H. rewrite H. now rewrite orb_true_r.
    - rewrite (eqb_false_of_neq H). now rewrite orb_true_r. }
  assert (Hload :
    client.loadAllProxies c ctx (client.State params) (client.Descr_ params) tr
    = (Return (env, Some (errRequest {| code := client.ErrorID (client.base env);
                                        msg := client.Error (client.base env) |})),
       (tr ++ sentEvents (client.logF c ctx) (client.setRawQuery req (listQuery params))
                         resp took
           ++ [Decoded (client.Body resp)])%list)).
  { rewrite (loadAllProxies_answered L N c ctx params tr req resp took Hreq Hdo).
    rewrite (doRequest_answered L N _ _ _ _ tr resp took Hdo).
    unfold client.StatusBadRequest.
    destruct (Z.leb_spec 400 (client.StatusCode resp)); [lia |].
    cbv zeta. rewrite Hdec. simpl. now rewrite His. }
  eexists. split; [exact Hload |].
  split; [exact (ListProxies_load_failed L N c ctx params tr _ env _ Hload) |].
  repeat split.
Qed.

Lemma C3_witness_status_no_error_100 :
  exists tr',
    @client.loadAllProxies sampleLib _ (sampleClient (decodeTo errorEnvelope) 200 "{}")
      tt (client.State activeParams) (client.Descr_ activeParams) []
    = (Return (errorEnvelope, Some (errRequest {| code := 100; msg := "Error key" |})), tr')
    /\ @client.ListProxies sampleLib _ (sampleClient (decodeTo errorEnvelope) 200 "{}")
         tt activeParams []
       = (Return (None, Some (errRequest {| code := 100; msg := "Error key" |})), tr')
    /\ client.GetCode (Some (errRequest {| code := 100; msg := "Error key" |})) = 100
    /\ client.GetMessage (Some (errRequest {| code := 100; msg := "Error key" |}))
       = "Error key"
    /\ (forall prefix,
          client.GetCode
            (Some (@fmt.Errorf_w sampleLib prefix
                     (errRequest {| code := 100; msg := "Error key" |})))
          = 100).
Proof.
  apply (C3_envelope_error_is_request_error sampleLib (sampleNet (decodeTo errorEnvelope))
           (sampleClient (decodeTo errorEnvelope) 200 "{}") tt activeParams []
           (listURL (sampleClient (decodeTo errorEnvelope) 200 "{}"), EmptyString)
           {| client.StatusCode := 200; client.Body := "{}" |} 1000 errorEnvelope).
  - reflexivity.
  - reflexivity.
  - simpl. lia.
  - reflexivity.
  - left. reflexivity.
Defined.

(** C4: when the response has a status of at least 400, [doRequest]
    fails with the request error made of the status code and the body;
    the envelope behind [dst] is returned as it was and nothing is
    decoded; [ListProxies] returns the same error and a nil list. *)
Theorem C4_http_error_status_skips_decoding :
  forall (L : GoLib) (N : client.Net) (c : client.http_Client) (req : client.Request)
         (log : Logger) (dst : client.proxyResponse) (tr : list Event)
         (resp : client.Response) (took : Z),
    c req = (inl resp, took) ->
    400 <= client.StatusCode resp ->
    client.doRequest c req log dst tr
    = (Return (dst, Some (errRequest {| code := client.StatusCode resp;
                                        msg := client.Body resp |})),
       (tr ++ sentEvents log req resp took)%list)
    /\ forallb (fun ev => negb (isDecoded ev)) (sentEvents log req resp took) = true
    /\ client.GetCode (Some (errRequest {| code := client.StatusCode resp;
                                           msg := client.Body resp |}))
       = client.StatusCode resp
    /\ client.GetMessage (Some (errRequest {| code := client.StatusCode resp;
                                              msg := client.Body resp |}))
       = client.Body resp
    /\ (forall (hc : client.httpClient) (ctx : client.Context)
               (params : client.ListProxyParams) (req0 : client.Request),
          client.hclient hc = c ->
          client.logF hc ctx = log ->
          client.NewRequestWithContext ctx "GET" (listURL hc) = inl req0 ->
          req = client.setRawQuery req0 (listQuery params) ->
          client.ListProxies hc ctx params tr
          = (Return (None, Some (errRequest {| code := client.StatusCode resp;
                                               msg := client.Body resp |})),
             (tr ++ sentEvents log req resp took)%list)).
Proof.
  intros L N c req log dst tr resp took Hdo Hcode.
  assert (Hrun : forall d,
    client.doRequest c req log d tr
    = (Return (d, Some (errRequest {| code := client.StatusCode resp;
                                      msg := client.Body resp |})),
       (tr ++ sentEvents log req resp took)%list)).
  { intro d. rewrite (doRequest_answered L N c req log d tr resp took Hdo).
    unfold client.StatusBadRequest.
    destruct (Z.leb_spec 400 (client.StatusCode resp)); [reflexivity | lia]. }
  split; [apply Hrun |].
  split; [apply sentEvents_not_decoded |].
  split; [reflexivity |]. split; [reflexivity |].
  intros hc ctx params req0 Hc Hlog Hreq0 Hreq. subst c log req.
  apply ListProxies_load_failed with (resp := client.proxyResponse_zero).
  rewrite (loadAllProxies_answered L N hc ctx params tr req0 resp took Hreq0 Hdo).
  cbv zeta. rewrite Hrun. reflexivity.
Qed.

Lemma C4_witness_status_404 :
  @client.doRequest sampleLib (sampleNet (decodeTo errorEnvelope))
     (answering (decodeTo errorEnvelope) 404 "not found")
     ("https://proxy6.net/api/k/getproxy", "state=active")
     recordingLogger client.proxyResponse_zero []
  = (Return (client.proxyResponse_zero,
             Some (errRequest {| code := 404; msg := "not found" |})),
     ([] ++ @sentEvents (sampleNet (decodeTo errorEnvelope)) recordingLogger
              ("https://proxy6.net/api/k/getproxy", "state=active")
              {| client.StatusCode := 404; client.Body := "not found" |} 1000)%list)
  /\ client.GetCode (Some (errRequest {| code := 404; msg := "not found" |})) = 404.
Proof.
  pose proof (C4_http_error_status_skips_decoding sampleLib
                (sampleNet (decodeTo errorEnvelope))
                (answering (decodeTo errorEnvelope) 404 "not found")
                ("https://proxy6.net/api/k/getproxy", "state=active")
                recordingLogger client.proxyResponse_zero []
                {| client.StatusCode := 404; client.Body := "not found" |} 1000
                eq_refl) as H.
  simpl client.StatusCode in H. simpl client.Body in H.
  destruct H as (H1 & _ & H3 & _); [lia |].
  split; [exact H1 | exact H3].
Defined.

(** ** ParseProxyState *)

Lemma isUpperASCII_spec (c : byte) :
  strings.isUpperASCII c = true <-> 65 <= b2z c <= 90.
Proof.
  unfold strings.isUpperASCII. rewrite andb_true_iff, !Z.leb_le. tauto.
Qed.

Lemma ascii_eqb_b2z (c d : byte) : Ascii.eqb c d = (b2z c =? b2z d).
Proof.
  destruct (Ascii.eqb_spec c d) as [-> | Hne].
  - now rewrite Z.eqb_refl.
  - symmetry. apply Z.eqb_neq. intro H. apply Hne. now apply b2z_inj.
Qed.

(** Lowering a byte gives [d], a byte that is not an upper-case letter,
    exactly when the byte is [d] or the upper-case form of [d]. *)
Lemma lowerByte_eqb (c d : byte) :
  strings.isUpperASCII d = false ->
  Ascii.eqb (strings.lowerByte c) d
  = Ascii.eqb c d || ((97 <=? b2z d) && (b2z d <=? 122) && (b2z c =? b2z d - 32)).
Proof.
  intro Hd.
  assert (Hd' : ~ 65 <= b2z d <= 90)
    by (rewrite <- isUpperASCII_spec; congruence).
  pose proof (b2z_range c) as Hc. pose proof (b2z_range d) as Hdr.
  unfold strings.lowerByte. rewrite !ascii_eqb_b2z.
  destruct (strings.isUpperASCII c) eqn:Hup.
  - apply isUpperASCII_spec in Hup.
    rewrite b2z_z2b by lia.
    destruct (Z.eqb_spec (b2z c + 32) (b2z d)) as [He | He];
      destruct (Z.eqb_spec (b2z c) (b2z d)); try lia;
      destruct (Z.leb_spec 97 (b2z d)); destruct (Z.leb_spec (b2z d) 122);
      destruct (Z.eqb_spec (b2z c) (b2z d - 32)); simpl; try reflexivity; lia.
  - assert (Hnu : ~ 65 <= b2z c <= 90)
      by (rewrite <- isUpperASCII_spec; congruence).
    destruct (Z.eqb_spec (b2z c) (b2z d)); simpl; [reflexivity |].
    destruct (Z.leb_spec 97 (b2z d)); destruct (Z.leb_spec (b2z d) 122);
      destruct (Z.eqb_spec (b2z c) (b2z d - 32)); simpl; try reflexivity; lia.
Qed.

Lemma asciiCaseVariant_lowered (w : string) :
  noUpper w = true ->
  forall s, asciiCaseVariant s w = String.eqb (strings.mapBytes strings.lowerByte s) w.
Proof.
  induction w as [| d w IH]; intros Hw s; destruct s as [| c s]; simpl; try reflexivity.
  simpl in Hw. apply andb_prop in Hw as [Hd Hw].
  apply negb_true_iff in Hd.
  rewrite (lowerByte_eqb c d Hd), (IH Hw s).
  destruct (Ascii.eqb c d || _); reflexivity.
Qed.

Lemma asciiCaseVariant_isASCII (w : string) :
  strings.isASCII w = true ->
  forall s, asciiCaseVariant s w = true -> strings.isASCII s = true.
Proof.
  induction w as [| d w IH]; intros Hw s; destruct s as [| c s]; simpl;
    try reflexivity; try discriminate.
  simpl in Hw. apply andb_prop in Hw as [Hd Hw]. apply Z.ltb_lt in Hd.
  intro H. apply andb_prop in H as [Hc Hs].
  rewrite (IH Hw s Hs), andb_true_r. apply Z.ltb_lt.
  apply orb_prop in Hc as [Hc | Hc].
  - apply Ascii.eqb_eq in Hc. now subst.
  - apply andb_prop in Hc as [_ Hc]. apply Z.eqb_eq in Hc.
    pose proof (b2z_range d). unfold RuneSelf in *. lia.
Qed.

Lemma ParseProxyState_lowered (L : GoLib) (value w : string) (st : client.ProxyState) :
  In (w, st) stateNames -> strings.ToLower value = w ->
  client.ParseProxyState value = (st, None).
Proof.
  intros Hin Hlow. simpl in Hin.
  destruct Hin as [H | [H | [H | [H | []]]]]; injection H as <- <-;
    unfold client.ParseProxyState; rewrite Hlow; reflexivity.
Qed.

Lemma ToLower_ascii_name (L : GoLib) (value w : string) (st : client.ProxyState) :
  In (w, st) stateNames -> strings.isASCII value = true ->
  (strings.ToLower value = w <-> asciiCaseVariant value w = true).
Proof.
  intros Hin Hascii. unfold strings.ToLower. rewrite Hascii.
  assert (Hw : noUpper w = true).
  { simpl in Hin.
    destruct Hin as [H | [H | [H | [H | []]]]]; injection H as <- <-; reflexivity. }
  rewrite (asciiCaseVariant_lowered w Hw value). symmetry. apply String.eqb_eq.
Qed.

(** C5 (as the code has it): [ParseProxyState] succeeds exactly on the
    strings that [strings.ToLower] takes to one of the four names, with
    the value of that name, and fails on every other string with the
    unknown state and a parse error of name "state" and reason
    "unsupported value <argument>".  On an ASCII-only string the lowered
    text is a name exactly when the string is that name up to the case
    of its ASCII letters, and every string that is a name up to the case
    of ASCII letters is accepted; on a string with a byte outside ASCII
    the lowered text is the one of Unicode's lower-case mapping. *)
Theorem C5_ParseProxyState_by_lowered_text :
  forall (L : GoLib) (value : string),
    (forall w st, In (w, st) stateNames -> asciiCaseVariant value w = true ->
                  client.ParseProxyState value = (st, None))
    /\ (forall w st, In (w, st) stateNames -> strings.ToLower value = w ->
                     client.ParseProxyState value = (st, None))
    /\ ((forall w st, In (w, st) stateNames -> strings.ToLower value <> w) ->
        client.ParseProxyState value
        = (client.ProxyStateUnknown,
           Some (errParse {| Name := "state"; Reason := "unsupported value " ++ value |})))
    /\ (strings.isASCII value = true ->
        forall w st, In (w, st) stateNames ->
                     (strings.ToLower value = w <-> asciiCaseVariant value w = true))
    /\ (strings.isASCII value = false ->
        strings.ToLower value = unicodeMapToLower value).
Proof.
  intros L value. split; [| split; [| split; [| split]]].
  - intros w st Hin Hcv.
    assert (Hw : strings.isASCII w = true).
    { simpl in Hin.
      destruct Hin as [H | [H | [H | [H | []]]]]; injection H as <- <-; reflexivity. }
    apply (ParseProxyState_lowered L value w st Hin).
    apply (ToLower_ascii_name L value w st Hin); [| exact Hcv].
    exact (asciiCaseVariant_isASCII w Hw value Hcv).
  - intros w st. apply ParseProxyState_lowered.
  - intro Hnone.
    pose proof (Hnone "all" client.ProxyStateAll) as Hall.
    pose proof (Hnone "active" client.ProxyStateActive) as Hact.
    pose proof (Hnone "expired" client.ProxyStateExpired) as Hexd.
    pose proof (Hnone "expiring" client.ProxyStateExpiring) as Hexg.
    unfold client.ParseProxyState, client.ProxyState_String, client.newParseError.
    rewrite (eqb_false_of_neq (Hall ltac:(simpl; auto))).
    rewrite (eqb_false_of_neq (Hexg ltac:(simpl; auto))).
    rewrite (eqb_false_of_neq (Hexd ltac:(simpl; auto))).
    rewrite (eqb_false_of_neq (Hact ltac:(simpl; auto))).
    reflexivity.
  - intros Hascii w st Hin. now apply (ToLower_ascii_name L value w st).
  - intro Hna. unfold strings.ToLower. now rewrite Hna.
Qed.

Lemma C5_witness_mixed_case :
  @client.ParseProxyState sampleLib "ExPiRiNg" = (client.ProxyStateExpiring, None)
  /\ @client.ParseProxyState dottedLib dottedACTIVE = (client.ProxyStateActive, None)
  /\ @client.ParseProxyState sampleLib "enabled"
     = (client.ProxyStateUnknown,
        Some (errParse {| Name := "state"; Reason := "unsupported value enabled" |})).
Proof.
  split; [| split].
  - apply (proj1 (C5_ParseProxyState_by_lowered_text sampleLib "ExPiRiNg")
             "expiring" client.ProxyStateExpiring).
    + simpl. auto.
    + reflexivity.
  - apply (proj1 (proj2 (C5_ParseProxyState_by_lowered_text dottedLib dottedACTIVE))
             "active" client.ProxyStateActive).
    + simpl. auto.
    + reflexivity.
  - apply (proj1 (proj2 (proj2 (C5_ParseProxyState_by_lowered_text sampleLib "enabled")))).
    intros w st Hin. simpl in Hin.
    destruct Hin as [H | [H | [H | [H | []]]]]; injection H as <- <-; discriminate.
Defined.

(** C5 fails as stated: "ACTIVE" written with U+0130 (capital I with dot
    above) for its fourth letter is none of the four names up to the
    case of its letters, byte by byte or by length, yet it parses to the
    active state, because Go's lower-case mapping takes U+0130 to the
    letter i. *)
Lemma C5_counterexample_dotted_capital_I :
  @client.ParseProxyState dottedLib dottedACTIVE = (client.ProxyStateActive, None)
  /\ asciiCaseVariant dottedACTIVE "all" = false
  /\ asciiCaseVariant dottedACTIVE "active" = false
  /\ asciiCaseVariant dottedACTIVE "expired" = false
  /\ asciiCaseVariant dottedACTIVE "expiring" = false
  /\ strings.isASCII dottedACTIVE = false
  /\ len dottedACTIVE = 7.
Proof. repeat split. Qed.

(* ================================================================== *)
(** * Further properties of the two packages *)

(** ** States and types as text *)

Lemma ProxyState_String_uint8_constant (s : client.ProxyState) :
  client.ProxyState_String_uint8 (client.ProxyState_uint8 s) = client.ProxyState_String s.
Proof. destruct s; reflexivity. Qed.

(** X1: over all the values of the [uint8] behind [ProxyState], the text
    of a value parses back to that value exactly for 1 to 4, the four
    named constants; every other value, 0 and 5 to 255, has the empty
    text, which does not parse. *)
Theorem X1_ParseProxyState_of_String :
  forall (L : GoLib) (v : Z),
    0 <= v <= 255 ->
    (1 <= v <= 4 ->
       exists s, client.ProxyState_uint8 s = v
                 /\ client.ProxyState_String s = client.ProxyState_String_uint8 v
                 /\ client.ProxyState_MarshalText s = client.ProxyState_String_uint8 v
                 /\ client.ParseProxyState (client.ProxyState_String_uint8 v) = (s, None))
    /\ (~ 1 <= v <= 4 ->
          client.ProxyState_String_uint8 v = EmptyString
          /\ client.ParseProxyState (client.ProxyState_String_uint8 v)
             = (client.ProxyStateUnknown,
                Some (errParse {| Name := "state"; Reason := "unsupported value " |}))).
Proof.
  intros L v Hv. split.
  - intro Hnamed.
    assert (Hcases : v = 1 \/ v = 2 \/ v = 3 \/ v = 4) by lia.
    destruct Hcases as [-> | [-> | [-> | ->]]].
    + exists client.ProxyStateActive. repeat split.
    + exists client.ProxyStateExpired. repeat split.
    + exists client.ProxyStateExpiring. repeat split.
    + exists client.ProxyStateAll. repeat split.
  - intro Hother.
    assert (Htext : client.ProxyState_String_uint8 v = EmptyString).
    { unfold client.ProxyState_String_uint8. simpl client.ProxyState_uint8.
      destruct (Z.eqb_spec v 4); [lia |]. destruct (Z.eqb_spec v 3); [lia |].
      destruct (Z.eqb_spec v 2); [lia |]. destruct (Z.eqb_spec v 1); [lia |].
      reflexivity. }
    rewrite Htext. split; reflexivity.
Qed.

Lemma X1_witness_expiring_and_seven :
  (exists s, client.ProxyState_uint8 s = 3
             /\ client.ProxyState_String s = client.ProxyState_String_uint8 3
             /\ client.ProxyState_MarshalText s = client.ProxyState_String_uint8 3
             /\ @client.ParseProxyState sampleLib (client.ProxyState_String_uint8 3)
                = (s, None))
  /\ client.ProxyState_String_uint8 7 = EmptyString.
Proof.
  split.
  - apply (proj1 (X1_ParseProxyState_of_String sampleLib 3 ltac:(lia))). lia.
  - apply (proj2 (X1_ParseProxyState_of_String sampleLib 7 ltac:(lia))). lia.
Defined.

(** X2: when [ParseProxyState] succeeds, the state is one of the four
    named ones and its name is the lower-cased argument. *)
Theorem X2_ParseProxyState_success :
  forall (L : GoLib) (value : string) (s : client.ProxyState),
    client.ParseProxyState value = (s, None) ->
    s <> client.ProxyStateUnknown
    /\ client.ProxyState_String s = strings.ToLower value.
Proof.
  intros L value s. unfold client.ParseProxyState.
  destruct (String.eqb_spec (strings.ToLower value)
              (client.ProxyState_String client.ProxyStateAll)) as [E | _].
  { intro H. injection H as <-. split; [discriminate | now rewrite E]. }
  destruct (String.eqb_spec (strings.ToLower value)
              (client.ProxyState_String client.ProxyStateExpiring)) as [E | _].
  { intro H. injection H as <-. split; [discriminate | now rewrite E]. }
  destruct (String.eqb_spec (strings.ToLower value)
              (client.ProxyState_String client.ProxyStateExpired)) as [E | _].
  { intro H. injection H as <-. split; [discriminate | now rewrite E]. }
  destruct (String.eqb_spec (strings.ToLower value)
              (client.ProxyState_String client.ProxyStateActive)) as [E | _].
  { intro H. injection H as <-. split; [discriminate | now rewrite E]. }
  discriminate.
Qed.

Lemma X2_witness_upper_case :
  client.ProxyStateExpired <> client.ProxyStateUnknown
  /\ client.ProxyState_String client.ProxyStateExpired
     = @strings.ToLower sampleLib "EXPIRED".
Proof.
  apply (X2_ParseProxyState_success sampleLib "EXPIRED" client.ProxyStateExpired).
  reflexivity.
Defined.

(** X3: when [ParseProxyState] fails, the state is the unknown one and
    the error is a parse error whose text is "parsing state: unsupported
    value <argument>"; the accessors find neither a code nor a message in
    it. *)
Theorem X3_ParseProxyState_failure :
  forall (L : GoLib) (value : string) (s : client.ProxyState) (err : error),
    client.ParseProxyState value = (s, Some err) ->
    s = client.ProxyStateUnknown
    /\ Error err = "parsing state: unsupported value " ++ value
    /\ client.GetCode (Some err) = -1
    /\ client.GetMessage (Some err) = EmptyString.
Proof.
  intros L value s err. unfold client.ParseProxyState.
  repeat match goal with
         | |- context [if ?b then _ else _] => destruct b; [discriminate |]
         end.
  intro H. injection H as <- <-. repeat split.
Qed.

Lemma X3_witness_disabled :
  client.ProxyStateUnknown = client.ProxyStateUnknown
  /\ @Error sampleLib
       (errParse {| Name := "state"; Reason := "unsupported value disabled" |})
     = "parsing state: unsupported value " ++ "disabled"
  /\ client.GetCode
       (Some (errParse {| Name := "state"; Reason := "unsupported value disabled" |}))
     = -1
  /\ client.GetMessage
       (Some (errParse {| Name := "state"; Reason := "unsupported value disabled" |}))
     = EmptyString.
Proof.
  apply (X3_ParseProxyState_failure sampleLib "disabled" client.ProxyStateUnknown).
  reflexivity.
Defined.

(** X4: the text of a proxy type parses back to the type, the type of a
    string that parses has that string as its text, and the unknown type
    has no text: marshalling it fails with an error that wraps
    [ErrWrongProxyType]. *)
Theorem X4_ProxyType_text_round_trip :
  forall (L : GoLib),
    (forall t text,
       entities.ProxyType_MarshalText t = (Some text, None) ->
       entities.ParseProxyType text = (t, None))
    /\ (forall value t,
          entities.ParseProxyType value = (t, None) ->
          entities.ProxyType_MarshalText t = (Some value, None))
    /\ (exists err,
          entities.ProxyType_MarshalText entities.ProxyTypeUnknown = (None, Some err)
          /\ errors.Is err entities.ErrWrongProxyType = true
          /\ Error err = "type 0: wrong proxy type").
Proof.
  intro L. split; [| split].
  - intros t text. destruct t; simpl; intro H; try discriminate;
      injection H as <-; reflexivity.
  - intros value t. unfold entities.ParseProxyType.
    destruct (String.eqb_spec value "http") as [-> | _].
    { intro H. injection H as <-. reflexivity. }
    destruct (String.eqb_spec value "socks") as [-> | _].
    { intro H. injection H as <-. reflexivity. }
    discriminate.
  - eexists. repeat split.
Qed.

Lemma X4_witness_socks :
  @entities.ParseProxyType sampleLib "socks" = (entities.ProxyTypeSocks, None)
  /\ @entities.ProxyType_MarshalText sampleLib entities.ProxyTypeSocks
     = (Some "socks", None).
Proof.
  split.
  - apply (proj1 (X4_ProxyType_text_round_trip sampleLib) entities.ProxyTypeSocks "socks").
    reflexivity.
  - apply (proj1 (proj2 (X4_ProxyType_text_round_trip sampleLib))
             "socks" entities.ProxyTypeSocks).
    reflexivity.
Defined.

(** ** The errors of strconv.Atoi *)

Lemma parseIntFinish_error_kind (neg : bool) (s0 s : string) (v : Z) (e : error) :
  strconv.parseIntFinish neg s0 (strconv.ParseUint s) = (v, Some e) ->
  e = strconv.syntaxError "ParseInt" s0 \/ e = strconv.rangeError "ParseInt" s0.
Proof.
  destruct (ParseUint_spec s) as [Hdig Hbad].
  assert (Hchecked : forall un err,
            (err = None \/ err = Some (strconv.rangeError "ParseUint" s)) ->
            strconv.parseIntFinish neg s0 (un, err) = (v, Some e) ->
            e = strconv.rangeError "ParseInt" s0).
  { intros un err Herr. unfold strconv.parseIntFinish.
    destruct Herr as [-> | ->]; cbn [strconv.rangeError strconv.isErrRange strconv.ErrRange
                                     String.eqb Ascii.eqb Bool.eqb];
      repeat match goal with
             | |- context [if ?b then _ else _] => destruct b
             end; intro H; inversion H; reflexivity. }
  destruct (digitRun s) eqn:Hs.
  - rewrite (Hdig eq_refl).
    destruct (decimal s <=? strconv.maxUint64); intro H; right.
    + exact (Hchecked _ _ (or_introl eq_refl) H).
    + exact (Hchecked _ _ (or_intror eq_refl) H).
  - destruct (Hbad eq_refl) as [-> | ->]; intro H.
    + left. unfold strconv.parseIntFinish in H. simpl in H. now inversion H.
    + right. exact (Hchecked _ _ (or_intror eq_refl) H).
Qed.

(** An error of [Atoi] is a syntax error or a range error, under the
    name of [Atoi] and with the argument. *)
Lemma Atoi_error_kind (s : string) (v : Z) (e : error) :
  strconv.Atoi s = (v, Some e) ->
  e = strconv.syntaxError "Atoi" s \/ e = strconv.rangeError "Atoi" s.
Proof.
  unfold strconv.Atoi.
  destruct ((0 <? len s) && (len s <? 19)).
  - destruct s as [| c r]; [intro H; left; now inversion H |].
    repeat match goal with
           | |- context [if ?b then _ else _] => destruct b
           | |- context [match strconv.atoiLoop ?x ?y with _ => _ end] =>
               destruct (strconv.atoiLoop x y)
           end; intro H; inversion H; now left.
  - destruct (strconv.ParseInt s) as [i [pe |]] eqn:Hp; [| discriminate].
    assert (Hk : pe = strconv.syntaxError "ParseInt" s
                 \/ pe = strconv.rangeError "ParseInt" s).
    { destruct s as [| c r]; [left; simpl in Hp; now inversion Hp |].
      rewrite ParseInt_unfold in Hp.
      eapply parseIntFinish_error_kind; eauto. }
    destruct Hk as [-> | ->]; intro H; inversion H; [now left | now right].
Qed.

Lemma errors_Is_unfold (err target : error) :
  errors.Is err target
  = if errors.error_eq_dec err target then true
    else match errors.Unwrap err with
         | Some inner => errors.Is inner target
         | None => false
         end.
Proof. destruct err; reflexivity. Qed.

Lemma errors_Is_refl (e : error) : errors.Is e e = true.
Proof.
  rewrite errors_Is_unfold.
  destruct (errors.error_eq_dec e e) as [_ | Hne]; [reflexivity | now contradict Hne].
Qed.

(** ** What a failed mapping reports *)

(** X5: a port that does not parse is reported before the type is looked
    at: the error wraps the error of [strconv.Atoi], a syntax or a range
    error that names the port string, and is not a wrong-type error
    whatever the type string is.  When the port parses, the error is a
    wrong-type error whose text names the type string.  No mapping error
    carries a request code or a message for the accessors. *)
Theorem X5_mapProxyToEntity_error_kinds :
  forall (L : GoLib) (p : client.proxy) (err : error),
    snd (client.mapProxyToEntity p) = Some err ->
    (forall v e, strconv.Atoi (client.Port p) = (v, Some e) ->
       err = fmt.Errorf_w "parsing port: " e
       /\ (e = strconv.syntaxError "Atoi" (client.Port p)
           \/ e = strconv.rangeError "Atoi" (client.Port p))
       /\ errors.Unwrap err = Some e
       /\ errors.Is err e = true
       /\ errors.Is err entities.ErrWrongProxyType = false)
    /\ (forall n, strconv.Atoi (client.Port p) = (n, None) ->
          errors.Is err entities.ErrWrongProxyType = true
          /\ Error err
             = "parsing proxy type: type " ++ client.Type_ p ++ ": wrong proxy type")
    /\ client.GetCode (Some err) = -1
    /\ client.GetMessage (Some err) = EmptyString.
Proof.
  intros L p err Herr.
  destruct (mapProxyToEntity_cases L p)
    as [(n & e & Hp & Hm) | [(n & t & e & Hp & Ht & Hh & Hs & Hm) | (n & t & Hp & Ht & _ & Hm)]];
    rewrite Hm in Herr; simpl in Herr; try discriminate; injection Herr as <-.
  - pose proof (Atoi_error_kind _ _ _ Hp) as Hk.
    split; [| split].
    + intros v e' Hp'. rewrite Hp in Hp'. injection Hp' as _ <-.
      split; [reflexivity |]. split; [exact Hk |]. split; [reflexivity |].
      split.
      * unfold fmt.Errorf_w. rewrite errors_Is_unfold.
        destruct (errors.error_eq_dec _ _); [reflexivity |].
        simpl errors.Unwrap. apply errors_Is_refl.
      * destruct Hk as [-> | ->]; reflexivity.
    + intros m Hp'. rewrite Hp in Hp'. discriminate.
    + destruct Hk as [-> | ->]; split; reflexivity.
  - unfold entities.ParseProxyType in Ht.
    rewrite (eqb_false_of_neq Hh), (eqb_false_of_neq Hs) in Ht.
    injection Ht as _ <-.
    split; [| split].
    + intros v e' Hp'. rewrite Hp in Hp'. discriminate.
    + intros _ _. split; [reflexivity |].
      unfold fmt.Errorf_w. simpl. now rewrite append_assoc.
    + split; reflexivity.
Qed.

Lemma X5_witness_bad_port_and_bad_type :
  (forall v e, strconv.Atoi "12x" = (v, Some e) ->
     @fmt.Errorf_w sampleLib "parsing port: " (strconv.syntaxError "Atoi" "12x")
     = @fmt.Errorf_w sampleLib "parsing port: " e
     /\ (e = strconv.syntaxError "Atoi" "12x" \/ e = strconv.rangeError "Atoi" "12x")
     /\ errors.Unwrap
          (@fmt.Errorf_w sampleLib "parsing port: " (strconv.syntaxError "Atoi" "12x"))
        = Some e
     /\ errors.Is
          (@fmt.Errorf_w sampleLib "parsing port: " (strconv.syntaxError "Atoi" "12x")) e
        = true
     /\ errors.Is
          (@fmt.Errorf_w sampleLib "parsing port: " (strconv.syntaxError "Atoi" "12x"))
          entities.ErrWrongProxyType
        = false)
  /\ client.GetCode
       (Some (@fmt.Errorf_w sampleLib "parsing port: " (strconv.syntaxError "Atoi" "12x")))
     = -1.
Proof.
  pose proof (X5_mapProxyToEntity_error_kinds sampleLib (rawProxy "12x" "ftp" "1")
                (@fmt.Errorf_w sampleLib "parsing port: "
                   (strconv.syntaxError "Atoi" "12x")) eq_refl) as H.
  destruct H as (H1 & _ & H3 & _). split; [exact H1 | exact H3].
Defined.

(** ** What a mapped record holds *)

(** X6: a record that maps keeps its identifier, host, user, country and
    description; its two dates are the instants of the two UNIX
    timestamps, whatever the date strings say; the password is wrapped
    and serialises as "***"; the text of its type is the type string of
    the record. *)
Theorem X6_mapProxyToEntity_fields :
  forall (L : GoLib) (p : client.proxy) (e : entities.Proxy),
    client.mapProxyToEntity p = (e, None) ->
    entities.ID e = client.ID p
    /\ entities.Host e = client.Host p
    /\ entities.User e = client.User p
    /\ entities.Country e = client.Country p
    /\ entities.Description e = client.Descr p
    /\ entities.Date e = {| time.sec := client.Unixtime p; time.nsec := 0 |}
    /\ entities.ExpireDate e = {| time.sec := client.UnixtimeEnd p; time.nsec := 0 |}
    /\ entities.value (entities.Password e) = client.Pass p
    /\ entities.Sensitive_MarshalText (entities.Password e) = ("***", None)
    /\ entities.ProxyType_MarshalText (entities.Type_ e) = (Some (client.Type_ p), None).
Proof.
  intros L p e Hm.
  destruct (mapProxyToEntity_cases L p)
    as [(n & e' & Hp & Hm') | [(n & t & e' & Hp & Ht & Hh & Hs & Hm') | (n & t & Hp & Ht & Hty & Hm')]];
    rewrite Hm in Hm'; try discriminate.
  injection Hm' as ->. simpl.
  repeat (split; [reflexivity |]).
  destruct Hty as [[-> ->] | [-> ->]]; reflexivity.
Qed.

Lemma X6_witness_socks_record :
  entities.ID (fst (@client.mapProxyToEntity sampleLib (rawProxy "1080" "socks" "0")))
  = client.ID (rawProxy "1080" "socks" "0")
  /\ entities.Sensitive_MarshalText
       (entities.Password
          (fst (@client.mapProxyToEntity sampleLib (rawProxy "1080" "socks" "0"))))
     = ("***", None)
  /\ @entities.ProxyType_MarshalText sampleLib
       (entities.Type_ (fst (@client.mapProxyToEntity sampleLib (rawProxy "1080" "socks" "0"))))
     = (Some "socks", None).
Proof.
  pose proof (X6_mapProxyToEntity_fields sampleLib (rawProxy "1080" "socks" "0") _ eq_refl)
    as (H1 & _ & _ & _ & _ & _ & _ & _ & H9 & H10).
  split; [exact H1 | split; [exact H9 | exact H10]].
Defined.

(** X7: the URL of a mapped record is
    "<scheme>://<user>:<password>@<host>:<port>", with scheme "http" for
    the type string "http" and "socks5" for "socks", the password in
    clear and the port as the decimal literal of a number below 2^16; it
    is the same whether or not the password wrapper allows. *)
Theorem X7_ProxyURL_of_mapped_record :
  forall (L : GoLib) (p : client.proxy) (e : entities.Proxy),
    client.mapProxyToEntity p = (e, None) ->
    entities.ProxyURL e
    = (if String.eqb (client.Type_ p) "http" then "http" else "socks5")
        ++ "://" ++ client.User p ++ ":" ++ client.Pass p ++ "@" ++ client.Host p
        ++ ":" ++ strconv.Itoa (entities.Port e)
    /\ strconv.Atoi (strconv.Itoa (entities.Port e)) = (entities.Port e, None)
    /\ 0 <= entities.Port e < 2 ^ 16
    /\ entities.ProxyURL (setPassword e (entities.Sensitive_Allow (entities.Password e)))
       = entities.ProxyURL e.
Proof.
  intros L p e Hm.
  destruct (mapProxyToEntity_cases L p)
    as [(n & e' & Hp & Hm') | [(n & t & e' & Hp & Ht & Hh & Hs & Hm') | (n & t & Hp & Ht & Hty & Hm')]];
    rewrite Hm in Hm'; try discriminate.
  injection Hm' as ->.
  assert (Hport : 0 <= n mod 2 ^ 16 < 2 ^ 16) by (apply Z.mod_pos_bound; lia).
  split; [| split; [| split; [exact Hport | reflexivity]]].
  - destruct Hty as [[-> ->] | [-> ->]]; reflexivity.
  - apply Atoi_Itoa. simpl entities.Port. unfold inInt. lia.
Qed.

Lemma X7_witness_http_record :
  entities.ProxyURL (fst (@client.mapProxyToEntity sampleLib (rawProxy "8080" "http" "1")))
  = "http" ++ "://" ++ "u" ++ ":" ++ "p" ++ "@" ++ "10.0.0.1" ++ ":" ++ strconv.Itoa 8080.
Proof.
  exact (proj1 (X7_ProxyURL_of_mapped_record sampleLib (rawProxy "8080" "http" "1") _ eq_refl)).
Defined.

(** ** The list operation as a whole *)

Lemma mapItems_shape (L : GoLib) (items : list client.proxy) :
  forall acc,
    (exists xs, client.mapItems items acc = (Some xs, None))
    \/ (exists err, client.mapItems items acc = (None, Some err)).
Proof.
  induction items as [| x rest IH]; intro acc; simpl; [eauto |].
  destruct (client.mapProxyToEntity x) as [e [err |]]; [eauto | apply IH].
Qed.

Lemma filter_Logged (f : Event -> bool) (rs : list LogRecord) :
  (forall r, f (Logged r) = false) -> filter f (map Logged rs) = [].
Proof.
  intro Hf. induction rs as [| r rs IH]; simpl; [reflexivity |].
  now rewrite Hf.
Qed.

Lemma countRoundTrips_app (a b : list Event) :
  countRoundTrips (a ++ b) = (countRoundTrips a + countRoundTrips b)%nat.
Proof. unfold countRoundTrips. now rewrite filter_app, length_app. Qed.

Lemma countDecoded_app (a b : list Event) :
  countDecoded (a ++ b) = (countDecoded a + countDecoded b)%nat.
Proof. unfold countDecoded. now rewrite filter_app, length_app. Qed.

Lemma counts_Logged (rs : list LogRecord) :
  countRoundTrips (map Logged rs) = 0%nat /\ countDecoded (map Logged rs) = 0%nat.
Proof.
  unfold countRoundTrips, countDecoded.
  rewrite !filter_Logged by reflexivity. auto.
Qed.

Lemma decodedAfterDo_Logged (seen : bool) (rs : list LogRecord) (l : list Event) :
  decodedAfterDo seen (map Logged rs ++ l) = decodedAfterDo seen l.
Proof. induction rs as [| r rs IH]; simpl; auto. Qed.

(** [doRequest] when the transport fails. *)
Lemma doRequest_refused (L : GoLib) (N : client.Net) (c : client.http_Client)
    (req : client.Request) (log : Logger) (dst : client.proxyResponse)
    (tr : list Event) (err : error) (took : Z) :
  c req = (inr err, took) ->
  client.doRequest c req log dst tr
  = (Return (dst, Some (fmt.Errorf_w "doing request: " err)),
     (tr ++ map Logged (Debug log "sending request"
                          [LogField "req_url" (anyString (client.URLString req))])
         ++ [RoundTrip (client.URLString req)])%list).
Proof.
  intro Hc. unfold client.doRequest, bind, emitLog, emit, ret. rewrite Hc.
  now rewrite <- app_assoc.
Qed.

(** [doRequest] returns, calls [Do] once and decodes at most once,
    after that call. *)
Lemma doRequest_events (L : GoLib) (N : client.Net) (c : client.http_Client)
    (req : client.Request) (log : Logger) (dst : client.proxyResponse)
    (tr : list Event) :
  exists res evs,
    client.doRequest c req log dst tr = (Return res, (tr ++ evs)%list)
    /\ countRoundTrips evs = 1%nat
    /\ (countDecoded evs <= 1)%nat
    /\ decodedAfterDo false evs = true.
Proof.
  destruct (c req) as [[resp | err] took] eqn:Hc.
  - rewrite (doRequest_answered L N c req log dst tr resp took Hc).
    assert (Hsent : countRoundTrips (sentEvents log req resp took) = 1%nat
                    /\ countDecoded (sentEvents log req resp took) = 0%nat).
    { unfold sentEvents. rewrite !countRoundTrips_app, !countDecoded_app.
      destruct (counts_Logged (Debug log "sending request"
                  [LogField "req_url" (anyString (client.URLString req))])) as [-> ->].
      destruct (counts_Logged (Info log "request processed"
                  [LogField "code" (anyInt (client.StatusCode resp));
                   LogField "duration" (anyDuration took);
                   LogField "body" (anyString (client.Body resp))])) as [-> ->].
      split; reflexivity. }
    destruct Hsent as [Hrt Hdec].
    destruct (client.StatusBadRequest <=? client.StatusCode resp).
    + eexists _, _. split; [reflexivity |]. rewrite Hrt, Hdec.
      split; [reflexivity |]. split; [lia |].
      unfold sentEvents. rewrite decodedAfterDo_Logged. simpl.
      rewrite <- (app_nil_r (map Logged _)). now rewrite decodedAfterDo_Logged.
    + eexists _, _. split; [reflexivity |].
      rewrite countRoundTrips_app, countDecoded_app, Hrt, Hdec.
      unfold countRoundTrips, countDecoded. simpl.
      split; [lia |]. split; [lia |].
      unfold sentEvents. rewrite <- !app_assoc, decodedAfterDo_Logged. simpl.
      now rewrite decodedAfterDo_Logged.
  - rewrite (doRequest_refused L N c req log dst tr err took Hc).
    eexists _, _. split; [reflexivity |].
    rewrite countRoundTrips_app, countDecoded_app.
    destruct (counts_Logged (Debug log "sending request"
                [LogField "req_url" (anyString (client.URLString req))])) as [-> ->].
    unfold countRoundTrips, countDecoded. simpl.
    split; [lia |]. split; [lia |].
    now rewrite decodedAfterDo_Logged.
Qed.

(** [loadAllProxies] returns; without a request it leaves the trace as it
    is, with one it calls [Do] once. *)
Lemma loadAllProxies_events (L : GoLib) (N : client.Net) (c : client.httpClient)
    (ctx : client.Context) (params : client.ListProxyParams) (tr : list Event) :
  exists res evs,
    client.loadAllProxies c ctx (client.State params) (client.Descr_ params) tr
    = (Return res, (tr ++ evs)%list)
    /\ (countRoundTrips evs <= 1)%nat
    /\ (countDecoded evs <= 1)%nat
    /\ decodedAfterDo false evs = true
    /\ (forall err, client.NewRequestWithContext ctx "GET" (listURL c) = inr err ->
                    evs = [] /\ res = (client.proxyResponse_zero,
                                       Some (fmt.Errorf_w "making request: " err))).
Proof.
  unfold client.loadAllProxies, listURL.
  destruct (client.NewRequestWithContext ctx "GET" _) as [req | err].
  - destruct (doRequest_events L N (client.hclient c)
                (client.setRawQuery req
                   (client.encodeValues (client.ProxyState_String (client.State params))
                                        (client.Descr_ params)))
                (client.logF c ctx) client.proxyResponse_zero tr)
      as ([response err] & evs & Hrun & Hrt & Hdec & Hord).
    unfold bind. rewrite Hrun.
    destruct err as [err |];
      [| destruct (client.isError (client.base response))];
      eexists _, evs; (split; [reflexivity |]);
      (split; [lia |]); (split; [exact Hdec |]); (split; [exact Hord | discriminate]).
  - unfold ret. exists (client.proxyResponse_zero, Some (fmt.Errorf_w "making request: " err)), [].
    rewrite app_nil_r. split; [reflexivity |].
    split; [unfold countRoundTrips; simpl; lia |].
    split; [unfold countDecoded; simpl; lia |].
    split; [reflexivity |].
    intros err' H. injection H as <-. auto.
Qed.

(** X8: when the envelope that [loadAllProxies] returned has a list
    count that [make] accepts and all its records map, [ListProxies]
    returns the mapped records, one for each record and in the order of
    the list, and no error; for an empty list that is an empty slice, not
    nil. *)
Theorem X8_ListProxies_maps_all_in_order :
  forall (L : GoLib) (N : client.Net) (c : client.httpClient) (ctx : client.Context)
         (params : client.ListProxyParams) (tr tr' : list Event)
         (resp : client.proxyResponse),
    client.loadAllProxies c ctx (client.State params) (client.Descr_ params) tr
    = (Return (resp, None), tr') ->
    0 <= client.ListCount resp <= maxProxyCap ->
    forallb maps (client.List resp) = true ->
    client.ListProxies c ctx params tr
    = (Return (Some (map (fun p => fst (client.mapProxyToEntity p)) (client.List resp)),
               None), tr')
    /\ List.length (map (fun p => fst (client.mapProxyToEntity p)) (client.List resp))
       = List.length (client.List resp).
Proof.
  intros L N c ctx params tr tr' resp Hload Hcap Hall.
  split; [| apply length_map].
  rewrite (ListProxies_loaded L N c ctx params tr tr' resp Hload).
  unfold client.mapProxyResponse, client.make_ok.
  destruct (Z.leb_spec 0 (client.ListCount resp)); [| lia].
  destruct (Z.leb_spec (client.ListCount resp) maxProxyCap); [| lia].
  simpl. now rewrite (mapItems_all_map L (client.List resp) [] Hall).
Qed.

Lemma X8_witness_two_records :
  exists tr',
    @client.ListProxies sampleLib _
      (sampleClient
         (decodeTo (okEnvelope 2 [rawProxy "80" "http" "1"; rawProxy "1080" "socks" "0"]))
         200 "{}")
      tt activeParams []
    = (Return (Some (map (fun p => fst (@client.mapProxyToEntity sampleLib p))
                         (client.List (okEnvelope 2 [rawProxy "80" "http" "1";
                                                      rawProxy "1080" "socks" "0"]))),
               None), tr')
    /\ List.length (map (fun p => fst (@client.mapProxyToEntity sampleLib p))
                        (client.List (okEnvelope 2 [rawProxy "80" "http" "1";
                                                     rawProxy "1080" "socks" "0"])))
       = List.length (client.List (okEnvelope 2 [rawProxy "80" "http" "1";
                                                  rawProxy "1080" "socks" "0"])).
Proof.
  eexists.
  eapply (X8_ListProxies_maps_all_in_order sampleLib
            (sampleNet (decodeTo (okEnvelope 2 [rawProxy "80" "http" "1";
                                                 rawProxy "1080" "socks" "0"])))
            (sampleClient _ 200 "{}") tt activeParams []).
  - vm_compute. reflexivity.
  - vm_compute. split; discriminate.
  - reflexivity.
Defined.

(** X9: [ListProxies] never returns a list together with an error: with
    an error the list is nil, and without one the list is a slice, empty
    or not, but not nil. *)
Theorem X9_ListProxies_list_or_error :
  forall (L : GoLib) (N : client.Net) (c : client.httpClient) (ctx : client.Context)
         (params : client.ListProxyParams) (tr tr' : list Event)
         (proxies : option (list entities.Proxy)) (err : option error),
    client.ListProxies c ctx params tr = (Return (proxies, err), tr') ->
    (err <> None -> proxies = None)
    /\ (err = None -> exists xs, proxies = Some xs).
Proof.
  intros L N c ctx params tr tr' proxies err.
  unfold client.ListProxies, bind, lift, ret.
  destruct (client.loadAllProxies c ctx (client.State params) (client.Descr_ params) tr)
    as [[[resp [e |]] | reason] tr1]; try discriminate.
  - intro H. injection H as <- <- _. split; [reflexivity | discriminate].
  - unfold client.mapProxyResponse.
    destruct (client.make_ok (client.ListCount resp)); [| discriminate].
    destruct (mapItems_shape L (client.List resp) []) as [[xs ->] | [e ->]];
      intro H; injection H as <- <- _.
    + split; [intro Hn; now contradict Hn | eauto].
    + split; [reflexivity | discriminate].
Qed.

Lemma X9_witness_http_error :
  (Some (errRequest {| code := 503; msg := "busy" |}) <> None ->
   @None (list entities.Proxy) = None)
  /\ (Some (errRequest {| code := 503; msg := "busy" |}) = None ->
      exists xs, @None (list entities.Proxy) = Some xs).
Proof.
  eapply (X9_ListProxies_list_or_error sampleLib (sampleNet (decodeTo errorEnvelope))
            (sampleClient (decodeTo errorEnvelope) 503 "busy") tt activeParams []).
  vm_compute. reflexivity.
Defined.

(** X11: one call of [ListProxies] only adds to the trace; it calls
    [hclient.Do] at most once, decodes at most one body, and never
    decodes before the call of [Do]; when the request cannot be built it
    adds nothing to the trace and returns a nil list with the error
    wrapped as "making request: ...". *)
Theorem X11_ListProxies_one_round_trip :
  forall (L : GoLib) (N : client.Net) (c : client.httpClient) (ctx : client.Context)
         (params : client.ListProxyParams) (tr : list Event),
    exists evs,
      snd (client.ListProxies c ctx params tr) = (tr ++ evs)%list
      /\ (countRoundTrips evs <= 1)%nat
      /\ (countDecoded evs <= 1)%nat
      /\ decodedAfterDo false evs = true
      /\ (forall err, client.NewRequestWithContext ctx "GET" (listURL c) = inr err ->
            evs = []
            /\ fst (client.ListProxies c ctx params tr)
               = Return (None, Some (fmt.Errorf_w "making request: " err))).
Proof.
  intros L N c ctx params tr.
  destruct (loadAllProxies_events L N c ctx params tr)
    as ([resp err] & evs & Hload & Hrt & Hdec & Hord & Hnoreq).
  exists evs.
  assert (Hsnd : snd (client.ListProxies c ctx params tr) = (tr ++ evs)%list).
  { destruct err as [err |].
    - now rewrite (ListProxies_load_failed L N c ctx params tr _ resp err Hload).
    - rewrite (ListProxies_loaded L N c ctx params tr _ resp Hload).
      destruct (client.mapProxyResponse resp) as [[l [e |]] | reason]; reflexivity. }
  split; [exact Hsnd |]. split; [exact Hrt |]. split; [exact Hdec |].
  split; [exact Hord |].
  intros err' Herr'. destruct (Hnoreq err' Herr') as [-> Hres].
  split; [reflexivity |].
  injection Hres as -> ->.
  now rewrite (ListProxies_load_failed L N c ctx params tr _ _ _ Hload).
Qed.

Lemma X11_witness_request_not_built :
  exists evs,
    snd (@client.ListProxies sampleLib unbuildableNet unbuildableClient tt activeParams [])
    = ([] ++ evs)%list
    /\ evs = []
    /\ fst (@client.ListProxies sampleLib unbuildableNet unbuildableClient tt activeParams [])
       = Return (None, Some (@fmt.Errorf_w sampleLib "making request: "
                               (foreignError "invalid URL"))).
Proof.
  destruct (X11_ListProxies_one_round_trip sampleLib unbuildableNet unbuildableClient
              tt activeParams [])
    as (evs & Hsnd & _ & _ & _ & Hnone).
  exists evs. split; [exact Hsnd |].
  exact (Hnone (foreignError "invalid URL") eq_refl).
Defined.

(** ** Failures before an envelope, and the envelopes that pass *)

(** [loadAllProxies] when the transport fails. *)
Lemma loadAllProxies_refused (L : GoLib) (N : client.Net) (c : client.httpClient)
    (ctx : client.Context) (params : client.ListProxyParams) (tr : list Event)
    (req : client.Request) (err : error) (took : Z) :
  client.NewRequestWithContext ctx "GET" (listURL c) = inl req ->
  client.hclient c (client.setRawQuery req (listQuery params)) = (inr err, took) ->
  client.loadAllProxies c ctx (client.State params) (client.Descr_ params) tr
  = (Return (client.proxyResponse_zero, Some (fmt.Errorf_w "doing request: " err)),
     (tr ++ map Logged
               (Debug (client.logF c ctx) "sending request"
                  [LogField "req_url"
                     (anyString (client.URLString
                                   (client.setRawQuery req (listQuery params))))])
         ++ [RoundTrip (client.URLString (client.setRawQuery req (listQuery params)))])%list).
Proof.
  intros Hreq Hdo. unfold client.loadAllProxies, listURL in *. rewrite Hreq.
  unfold bind, listQuery in *. cbv zeta.
  now rewrite (doRequest_refused L N _ _ _ _ tr err took Hdo).
Qed.

(** X12: when the transport fails, [ListProxies] returns a nil list and
    the transport's error wrapped as "doing request: ..."; the error can
    be unwrapped, the accessors read through the wrapping, and the trace
    gains the debug record and the round trip only: no info record, no
    decoding. *)
Theorem X12_transport_failure :
  forall (L : GoLib) (N : client.Net) (c : client.httpClient) (ctx : client.Context)
         (params : client.ListProxyParams) (tr : list Event)
         (req : client.Request) (err : error) (took : Z),
    client.NewRequestWithContext ctx "GET" (listURL c) = inl req ->
    client.hclient c (client.setRawQuery req (listQuery params)) = (inr err, took) ->
    client.ListProxies c ctx params tr
    = (Return (None, Some (fmt.Errorf_w "doing request: " err)),
       (tr ++ map Logged
                 (Debug (client.logF c ctx) "sending request"
                    [LogField "req_url"
                       (anyString (client.URLString
                                     (client.setRawQuery req (listQuery params))))])
           ++ [RoundTrip (client.URLString (client.setRawQuery req (listQuery params)))])%list)
    /\ errors.Unwrap (fmt.Errorf_w "doing request: " err) = Some err
    /\ Error (fmt.Errorf_w "doing request: " err) = "doing request: " ++ Error err
    /\ client.GetCode (Some (fmt.Errorf_w "doing request: " err)) = client.GetCode (Some err)
    /\ client.GetMessage (Some (fmt.Errorf_w "doing request: " err))
       = client.GetMessage (Some err).
Proof.
  intros L N c ctx params tr req err took Hreq Hdo.
  split; [| repeat split].
  apply ListProxies_load_failed with (resp := client.proxyResponse_zero).
  now apply loadAllProxies_refused with (took := took).
Qed.

Lemma X12_witness_connection_refused :
  @client.ListProxies sampleLib (sampleNet decodeNothing)
    {| client.addr := client.defaultAddr; client.key := "k";
       client.hclient := refusing decodeNothing (foreignError "connection refused");
       client.logF := fun _ => recordingLogger |}
    tt activeParams []
  = (Return (None,
             Some (@fmt.Errorf_w sampleLib "doing request: "
                     (foreignError "connection refused"))),
     [Logged {| level := "debug"; message := "sending request";
                fields := [LogField "req_url"
                             (anyString
                                "https://proxy6.net/api/k/getproxy?descr=&nokey=&state=active")] |};
      RoundTrip "https://proxy6.net/api/k/getproxy?descr=&nokey=&state=active"])
  /\ client.GetCode
       (Some (@fmt.Errorf_w sampleLib "doing request: " (foreignError "connection refused")))
     = -1.
Proof.
  pose proof (X12_transport_failure sampleLib (sampleNet decodeNothing)
                {| client.addr := client.defaultAddr; client.key := "k";
                   client.hclient := refusing decodeNothing (foreignError "connection refused");
                   client.logF := fun _ => recordingLogger |}
                tt activeParams []
                ("https://proxy6.net/api/k/getproxy", EmptyString)
                (foreignError "connection refused") 5 eq_refl eq_refl)
    as (H1 & _ & _ & H4 & _).
  split; [exact H1 | exact H4].
Defined.

(** X13: when the response has a status below 400 and its body does not
    decode, [ListProxies] returns a nil list and the decoding error
    wrapped as "decoding json: ..."; what the failed decoding left in the
    envelope is not looked at, even when it reads as a provider error. *)
Theorem X13_decoding_failure :
  forall (L : GoLib) (N : client.Net) (c : client.httpClient) (ctx : client.Context)
         (params : client.ListProxyParams) (tr : list Event)
         (req : client.Request) (resp : client.Response) (took : Z)
         (env : client.proxyResponse) (err : error),
    client.NewRequestWithContext ctx "GET" (listURL c) = inl req ->
    client.hclient c (client.setRawQuery req (listQuery params)) = (inl resp, took) ->
    client.StatusCode resp < 400 ->
    client.Unmarshal (client.Body resp) client.proxyResponse_zero = (env, Some err) ->
    client.ListProxies c ctx params tr
    = (Return (None, Some (fmt.Errorf_w "decoding json: " err)),
       (tr ++ sentEvents (client.logF c ctx) (client.setRawQuery req (listQuery params))
                         resp took
           ++ [Decoded (client.Body resp)])%list)
    /\ errors.Unwrap (fmt.Errorf_w "decoding json: " err) = Some err
    /\ client.GetCode (Some (fmt.Errorf_w "decoding json: " err)) = client.GetCode (Some err).
Proof.
  intros L N c ctx params tr req resp took env err Hreq Hdo Hcode Hdec.
  split; [| split; reflexivity].
  apply ListProxies_load_failed with (resp := env).
  rewrite (loadAllProxies_answered L N c ctx params tr req resp took Hreq Hdo).
  rewrite (doRequest_answered L N _ _ _ _ tr resp took Hdo).
  unfold client.StatusBadRequest.
  destruct (Z.leb_spec 400 (client.StatusCode resp)); [lia |].
  cbv zeta. rewrite Hdec. reflexivity.
Qed.

Lemma X13_witness_bad_body :
  fst (@client.ListProxies sampleLib (sampleNet decodeNothing)
         (sampleClient decodeNothing 200 "<html>") tt activeParams [])
  = Return (None,
            Some (@fmt.Errorf_w sampleLib "decoding json: "
                    (foreignError "invalid character")))
  /\ client.GetCode
       (Some (@fmt.Errorf_w sampleLib "decoding json: " (foreignError "invalid character")))
     = -1.
Proof.
  pose proof (X13_decoding_failure sampleLib (sampleNet decodeNothing)
                (sampleClient decodeNothing 200 "<html>") tt activeParams []
                ("https://proxy6.net/api/k/getproxy", EmptyString)
                {| client.StatusCode := 200; client.Body := "<html>" |} 1000
                client.proxyResponse_zero (foreignError "invalid character")
                eq_refl eq_refl) as H.
  simpl client.StatusCode in H. simpl client.Body in H.
  destruct H as (H1 & _ & H3); [lia | reflexivity |].
  split; [now rewrite H1 | exact H3].
Defined.

(** X14: when the response has a status below 400 and decodes, the
    envelope passes exactly when its status is not "no", its error_id is
    not positive and its error string is empty; [loadAllProxies] then
    returns it without an error.  The status need not be "yes", and a
    negative error_id passes. *)
Theorem X14_envelope_passes_iff :
  forall (L : GoLib) (N : client.Net) (c : client.httpClient) (ctx : client.Context)
         (params : client.ListProxyParams) (tr : list Event)
         (req : client.Request) (resp : client.Response) (took : Z)
         (env : client.proxyResponse),
    client.NewRequestWithContext ctx "GET" (listURL c) = inl req ->
    client.hclient c (client.setRawQuery req (listQuery params)) = (inl resp, took) ->
    client.StatusCode resp < 400 ->
    client.Unmarshal (client.Body resp) client.proxyResponse_zero = (env, None) ->
    (fst (client.loadAllProxies c ctx (client.State params) (client.Descr_ params) tr)
     = Return (env, None)
     <-> client.Status (client.base env) <> "no"
         /\ client.ErrorID (client.base env) <= 0
         /\ client.Error (client.base env) = EmptyString).
Proof.
  intros L N c ctx params tr req resp took env Hreq Hdo Hcode Hdec.
  rewrite (loadAllProxies_answered L N c ctx params tr req resp took Hreq Hdo).
  rewrite (doRequest_answered L N _ _ _ _ tr resp took Hdo).
  unfold client.StatusBadRequest.
  destruct (Z.leb_spec 400 (client.StatusCode resp)); [lia |].
  cbv zeta. rewrite Hdec. simpl. unfold client.isError.
  destruct (String.eqb_spec (client.Status (client.base env)) "no") as [Hs | Hs];
    destruct (Z.ltb_spec 0 (client.ErrorID (client.base env))) as [Hi | Hi];
    destruct (String.eqb_spec (client.Error (client.base env)) EmptyString) as [He | He];
    simpl; split; try discriminate; try tauto; try (intros (? & ? & ?); lia);
    try (intros (? & ? & ?); contradiction).
Qed.

Lemma X14_witness_no_status_negative_id :
  fst (@client.loadAllProxies sampleLib (sampleNet (decodeTo oddEnvelope))
         (sampleClient (decodeTo oddEnvelope) 200 "{}") tt
         (client.State activeParams) (client.Descr_ activeParams) [])
  = Return (oddEnvelope, None)
  <-> client.Status (client.base oddEnvelope) <> "no"
      /\ client.ErrorID (client.base oddEnvelope) <= 0
      /\ client.Error (client.base oddEnvelope) = EmptyString.
Proof.
  apply (X14_envelope_passes_iff sampleLib (sampleNet (decodeTo oddEnvelope))
           (sampleClient (decodeTo oddEnvelope) 200 "{}") tt activeParams []
           ("https://proxy6.net/api/k/getproxy", EmptyString)
           {| client.StatusCode := 200; client.Body := "{}" |} 1000 oddEnvelope).
  - reflexivity.
  - reflexivity.
  - simpl. lia.
  - reflexivity.
Defined.

(** ** The logger and the result *)

(** X16: with the no-op logger, the default of a new client, a call of
    [ListProxies] writes no log record. *)
Theorem X16_noop_logger_writes_nothing :
  forall (L : GoLib) (N : client.Net) (c : client.httpClient) (ctx : client.Context)
         (params : client.ListProxyParams) (tr : list Event),
    exists evs,
      snd (client.ListProxies (setLogF c client.GetLoggerNoop) ctx params tr)
      = (tr ++ evs)%list
      /\ filter isLogged evs = [].
Proof.
  intros L N c ctx params tr.
  assert (Hload : exists res evs,
    client.loadAllProxies (setLogF c client.GetLoggerNoop) ctx (client.State params)
      (client.Descr_ params) tr = (Return res, (tr ++ evs)%list)
    /\ filter isLogged evs = []).
  { unfold client.loadAllProxies. simpl.
    destruct (client.NewRequestWithContext ctx "GET" _) as [req | err].
    - unfold bind.
      set (rq := client.setRawQuery req _).
      destruct (client.hclient c rq) as [[resp | err] took] eqn:Hc.
      + rewrite (doRequest_answered L N _ rq _ _ tr resp took Hc).
        unfold sentEvents. simpl.
        destruct (client.StatusBadRequest <=? client.StatusCode resp).
        * eexists _, _. split; reflexivity.
        * destruct (client.Unmarshal (client.Body resp) client.proxyResponse_zero)
            as [response [e |]]; simpl.
          -- eexists _, _. split; reflexivity.
          -- destruct (client.isError (client.base response));
               eexists _, _; split; reflexivity.
      + rewrite (doRequest_refused L N _ rq _ _ tr err took Hc). simpl.
        eexists _, _. split; reflexivity.
    - unfold ret. eexists _, []. rewrite app_nil_r. split; reflexivity. }
  destruct Hload as ([resp err] & evs & Hload & Hlog).
  exists evs. split; [| exact Hlog].
  destruct err as [err |].
  - now rewrite (ListProxies_load_failed L N _ ctx params tr _ resp err Hload).
  - rewrite (ListProxies_loaded L N _ ctx params tr _ resp Hload).
    destruct (client.mapProxyResponse resp) as [[l [e |]] | reason]; reflexivity.
Qed.

(** ** Building a client *)

Lemma httpClient_eta (N : client.Net) (hc : client.httpClient) :
  {| client.addr := client.addr hc; client.key := client.key hc;
     client.hclient := client.hclient hc; client.logF := client.logF hc |} = hc.
Proof. destruct hc; reflexivity. Qed.

(** The options applied in turn: the first one that is not valid stops
    the loop with its general error, wrapped with its position; when all
    are valid, the last address and the last logger function stay. *)
Lemma applyOpts_options (L : GoLib) (N : client.Net) (opts : list clientOption) :
  forall (idx : Z) (hc : client.httpClient),
    client.applyOpts idx (map optionOf opts) hc
    = match firstInvalid opts idx with
      | Some (i, o) =>
          (None,
           Some (fmt.Errorf_w ("applying " ++ strconv.Itoa i ++ " opt: ")
                   (client.newGeneralError (optionMessage o))))
      | None =>
          (Some {| client.addr := lastAddr opts (client.addr hc);
                   client.key := client.key hc;
                   client.hclient := client.hclient hc;
                   client.logF := lastLogF opts (client.logF hc) |}, None)
      end.
Proof.
  induction opts as [| o rest IH]; intros idx hc.
  - simpl. now rewrite httpClient_eta.
  - cbn [map client.applyOpts firstInvalid].
    destruct o as [a | [f |]]; cbn [optionOf validOption];
      unfold client.WithAddr, client.WithLoggerFunc.
    + destruct (String.eqb a EmptyString); cbn [negb]; [reflexivity |].
      rewrite IH. destruct (firstInvalid rest (idx + 1)) as [[i o] |]; reflexivity.
    + rewrite IH. destruct (firstInvalid rest (idx + 1)) as [[i o] |]; reflexivity.
    + reflexivity.
Qed.

Lemma firstInvalid_spec (N : client.Net) (opts : list clientOption) :
  forall idx : Z,
    match firstInvalid opts idx with
    | None => forallb validOption opts = true
    | Some (i, o) =>
        idx <= i < idx + Z.of_nat (List.length opts)
        /\ nth_error opts (Z.to_nat (i - idx)) = Some o
        /\ validOption o = false
        /\ forallb validOption (firstn (Z.to_nat (i - idx)) opts) = true
    end.
Proof.
  induction opts as [| o rest IH]; intro idx; [reflexivity |].
  cbn [firstInvalid forallb List.length].
  destruct (validOption o) eqn:Hv.
  - specialize (IH (idx + 1)).
    destruct (firstInvalid rest (idx + 1)) as [[i o'] |]; [| exact IH].
    destruct IH as (Hi & Hnth & Hbad & Hpre).
    replace (Z.to_nat (i - idx)) with (S (Z.to_nat (i - (idx + 1)))) by lia.
    cbn [nth_error firstn forallb]. rewrite Hv.
    repeat split; auto; lia.
  - replace (idx - idx) with 0 by lia.
    repeat split; auto; lia.
Qed.

Lemma lastAddr_nonempty (N : client.Net) (opts : list clientOption) :
  forall a, forallb validOption opts = true -> a <> EmptyString ->
            lastAddr opts a <> EmptyString.
Proof.
  induction opts as [| o rest IH]; intros a Hall Ha; [exact Ha |].
  simpl in Hall. apply andb_prop in Hall as [Ho Hrest].
  destruct o as [b | f]; simpl.
  - apply IH; [exact Hrest |]. simpl in Ho.
    destruct (String.eqb_spec b EmptyString); [discriminate | assumption].
  - now apply IH.
Qed.

(** X17: [NewHTTPClient] with options that are all valid returns a
    client and no error; the client has the given key and transport, the
    address of the last address option, or the default address without
    one, and the logger function of the last logger option, or the no-op
    one; its address is never empty. *)
Theorem X17_NewHTTPClient_valid_options :
  forall (L : GoLib) (N : client.Net) (defaultClient : client.http_Client)
         (apiKey : string) (opts : list clientOption),
    forallb validOption opts = true ->
    client.NewHTTPClient defaultClient apiKey (map optionOf opts)
    = (Some {| client.addr := lastAddr opts client.defaultAddr;
               client.key := apiKey;
               client.hclient := defaultClient;
               client.logF := lastLogF opts client.GetLoggerNoop |}, None)
    /\ lastAddr opts client.defaultAddr <> EmptyString.
Proof.
  intros L N d apiKey opts Hall. split.
  - unfold client.NewHTTPClient. rewrite applyOpts_options.
    pose proof (firstInvalid_spec N opts 0) as Hspec.
    destruct (firstInvalid opts 0) as [[i o] |]; [| reflexivity].
    destruct Hspec as (_ & Hnth & Hbad & _).
    apply nth_error_In in Hnth.
    rewrite forallb_forall in Hall. rewrite (Hall o Hnth) in Hbad. discriminate.
  - apply lastAddr_nonempty; [exact Hall | discriminate].
Qed.

Lemma X17_witness_two_addresses :
  @client.NewHTTPClient sampleLib (sampleNet decodeNothing)
    (answering decodeNothing 200 "{}") "k"
    (map optionOf [optAddr "http://a"; optLoggerFunc (Some (fun _ => recordingLogger));
                   optAddr "http://b"])
  = (Some {| client.addr := "http://b"; client.key := "k";
             client.hclient := answering decodeNothing 200 "{}";
             client.logF := fun _ => recordingLogger |}, None)
  /\ "http://b" <> EmptyString.
Proof.
  apply (X17_NewHTTPClient_valid_options sampleLib (sampleNet decodeNothing)
           (answering decodeNothing 200 "{}") "k"
           [optAddr "http://a"; optLoggerFunc (Some (fun _ => recordingLogger));
            optAddr "http://b"]).
  reflexivity.
Defined.

(** X18: [NewHTTPClient] with an option that is not valid returns no
    client and the general error of the first such option, wrapped with
    its position: the text is "applying <position> opt: <message>", the
    message accessor finds the message through the wrapping and the code
    accessor finds no code; the options before it are valid and the ones
    after it are not looked at. *)
Theorem X18_NewHTTPClient_first_invalid_option :
  forall (L : GoLib) (N : client.Net) (defaultClient : client.http_Client)
         (apiKey : string) (opts : list clientOption),
    forallb validOption opts = false ->
    exists (i : nat) (o : clientOption) (err : error),
      nth_error opts i = Some o
      /\ validOption o = false
      /\ forallb validOption (firstn i opts) = true
      /\ client.NewHTTPClient defaultClient apiKey (map optionOf opts) = (None, Some err)
      /\ Error err
         = "applying " ++ strconv.Itoa (Z.of_nat i) ++ " opt: " ++ optionMessage o
      /\ client.GetMessage (Some err) = optionMessage o
      /\ client.GetCode (Some err) = -1.
Proof.
  intros L N d apiKey opts Hsome.
  pose proof (firstInvalid_spec N opts 0) as Hspec.
  pose proof (applyOpts_options L N opts 0
                {| client.addr := client.defaultAddr; client.key := apiKey;
                   client.hclient := d; client.logF := client.GetLoggerNoop |}) as Hrun.
  destruct (firstInvalid opts 0) as [[i o] |]; [| congruence].
  destruct Hspec as (Hi & Hnth & Hbad & Hpre).
  rewrite Z.sub_0_r in Hnth, Hpre.
  exists (Z.to_nat i), o. eexists.
  split; [exact Hnth |]. split; [exact Hbad |]. split; [exact Hpre |].
  split; [exact Hrun |].
  rewrite Z2Nat.id by lia.
  split; [| split; reflexivity].
  unfold fmt.Errorf_w. simpl. now rewrite !append_assoc.
Qed.

Lemma X18_witness_empty_address_second :
  exists (i : nat) (o : @clientOption (sampleNet decodeNothing)) (err : error),
    nth_error badOptions i = Some o
    /\ validOption o = false
    /\ forallb validOption (firstn i badOptions) = true
    /\ @client.NewHTTPClient sampleLib (sampleNet decodeNothing)
         (answering decodeNothing 200 "{}") "k" (map optionOf badOptions)
       = (None, Some err)
    /\ @Error sampleLib err
       = "applying " ++ strconv.Itoa (Z.of_nat i) ++ " opt: " ++ optionMessage o
    /\ client.GetMessage (Some err) = optionMessage o
    /\ client.GetCode (Some err) = -1.
Proof.
  apply (X18_NewHTTPClient_first_invalid_option sampleLib (sampleNet decodeNothing)
           (answering decodeNothing 200 "{}") "k" badOptions).
  reflexivity.
Defined.

(** ** When the list operation succeeds *)

(** X19: once the request is built and answered, [ListProxies] returns a
    list without an error exactly when the status is below 400, the body
    decodes, the envelope passes, its list count is a capacity that
    [make] accepts and every record maps; the list is then the mapped
    records in the order of the envelope. *)
Theorem X19_ListProxies_succeeds_iff :
  forall (L : GoLib) (N : client.Net) (c : client.httpClient) (ctx : client.Context)
         (params : client.ListProxyParams) (tr : list Event)
         (req : client.Request) (resp : client.Response) (took : Z),
    client.NewRequestWithContext ctx "GET" (listURL c) = inl req ->
    client.hclient c (client.setRawQuery req (listQuery params)) = (inl resp, took) ->
    forall xs,
      fst (client.ListProxies c ctx params tr) = Return (Some xs, None)
      <-> client.StatusCode resp < 400
          /\ exists env,
               client.Unmarshal (client.Body resp) client.proxyResponse_zero = (env, None)
               /\ client.isError (client.base env) = false
               /\ 0 <= client.ListCount env <= maxProxyCap
               /\ forallb maps (client.List env) = true
               /\ xs = map (fun p => fst (client.mapProxyToEntity p)) (client.List env).
Proof.
  intros L N c ctx params tr req resp took Hreq Hdo xs.
  pose proof (loadAllProxies_answered L N c ctx params tr req resp took Hreq Hdo) as Hload.
  rewrite (doRequest_answered L N _ _ _ _ tr resp took Hdo) in Hload.
  unfold client.StatusBadRequest in Hload. cbv zeta in Hload.
  destruct (Z.leb_spec 400 (client.StatusCode resp)) as [Hhi | Hlo].
  { simpl in Hload.
    rewrite (ListProxies_load_failed L N c ctx params tr _ _ _ Hload). simpl.
    split; [discriminate | intros [? _]; lia]. }
  destruct (client.Unmarshal (client.Body resp) client.proxyResponse_zero)
    as [env [derr |]] eqn:Hdec; simpl in Hload.
  { rewrite (ListProxies_load_failed L N c ctx params tr _ _ _ Hload). simpl.
    split; [discriminate | intros [_ (env' & H & _)]; discriminate]. }
  destruct (client.isError (client.base env)) eqn:Herr.
  { rewrite (ListProxies_load_failed L N c ctx params tr _ _ _ Hload). simpl.
    split; [discriminate |].
    intros [_ (env' & H & Hne & _)]. injection H as <-. congruence. }
  rewrite (ListProxies_loaded L N c ctx params tr _ env Hload).
  unfold client.mapProxyResponse, client.make_ok.
  destruct (Z.leb_spec 0 (client.ListCount env)) as [H0 | H0];
    [destruct (Z.leb_spec (client.ListCount env) maxProxyCap) as [H1 | H1] |];
    simpl.
  - destruct (forallb maps (client.List env)) eqn:Hall.
    + rewrite (mapItems_all_map L (client.List env) [] Hall). simpl.
      split.
      * intro H. injection H as <-. split; [exact Hlo |].
        exists env. repeat split; auto.
      * intros [_ (env' & H & _ & _ & _ & ->)]. injection H as <-. reflexivity.
    + assert (Hex : existsb (fun p => negb (maps p)) (client.List env) = true).
      { clear - Hall. induction (client.List env) as [| x l IH]; [discriminate |].
        simpl in *. destruct (maps x); simpl in *; auto. }
      destruct (mapItems_first_failure L (client.List env) [] Hex)
        as (pre & item & post & err & _ & _ & _ & Hrun).
      rewrite Hrun. simpl. split; [discriminate |].
      intros [_ (env' & H & _ & _ & Hall' & _)]. injection H as <-. congruence.
  - split; [discriminate |].
    intros [_ (env' & H & _ & Hcap & _)]. injection H as <-. lia.
  - split; [discriminate |].
    intros [_ (env' & H & _ & Hcap & _)]. injection H as <-. lia.
Qed.

Lemma X19_witness_one_record :
  fst (@client.ListProxies sampleLib (sampleNet (decodeTo oddEnvelope))
         (sampleClient (decodeTo oddEnvelope) 200 "{}") tt activeParams [])
  = Return (Some (map (fun p => fst (@client.mapProxyToEntity sampleLib p))
                      (client.List oddEnvelope)), None).
Proof.
  apply (X19_ListProxies_succeeds_iff sampleLib (sampleNet (decodeTo oddEnvelope))
           (sampleClient (decodeTo oddEnvelope) 200 "{}") tt activeParams []
           ("https://proxy6.net/api/k/getproxy", EmptyString)
           {| client.StatusCode := 200; client.Body := "{}" |} 1000 eq_refl eq_refl).
  split; [simpl; lia |].
  exists oddEnvelope. repeat split; try reflexivity; vm_compute; discriminate.
Defined.
